(** * Casino TAO validator: the SQLite persistence layer

    A shallow embedding of [casinotao/validator/database.py].

    - The SQLite file is a record of four tables, each a list of rows in
      insertion order, together with the [sqlite_sequence] counters of the
      three AUTOINCREMENT tables.
    - A call runs in a small state-and-exception monad: it opens a
      connection (a working copy of the committed database), executes
      statements on it, commits, closes, and writes to the [bt.logging] log.
    - The machine clock and the storage engine's failures are inputs of a
      call ([env]).
    - Python [float] arithmetic is an interface ([PyFloat]): the layer
      stores the numbers it is given and only adds them and compares them
      with zero.
    - A TEXT column written by [json.dumps] holds a JSON document
      ([json]); [json.loads] turns it back into a Python value. *)

From Stdlib Require Import ZArith Lia Ascii String.
From stdpp Require Import list strings pretty sorting.

Local Open Scope Z_scope.

(** ** Python values *)

(** [float]: the operations [save_snapshot] applies to scores and volumes. *)
Class PyFloat (num : Type) := {
  f_zero : num;                    (* the float of [sum]'s start value 0 *)
  f_add : num -> num -> num;       (* [+] *)
  f_gt_zero : num -> bool          (* [s > 0] *)
}.

(** Python's integers meet the interface; the concrete calls below use
    them. *)
#[export] Instance Z_PyFloat : PyFloat Z :=
  {| f_zero := 0; f_add := Z.add; f_gt_zero := fun x => 0 <? x |}.

(** [str(k)] of an [int]: its decimal numeral, with [-] when negative. *)
Definition py_str (k : Z) : string := pretty k.

(** [str.lower()], on strings of ASCII characters. *)
Definition ascii_lower (c : ascii) : ascii :=
  let n := N_of_ascii c in
  if ((65 <=? n) && (n <=? 90))%N then ascii_of_N (n + 32) else c.

Fixpoint lower (s : string) : string :=
  match s with
  | EmptyString => EmptyString
  | String c s' => String (ascii_lower c) (lower s')
  end.

(** [s[:n]] *)
Fixpoint str_prefix (n : nat) (s : string) : string :=
  match n, s with
  | S n', String c s' => String c (str_prefix n' s')
  | _, _ => EmptyString
  end.

(** A key of a Python [dict]: [1] and ["1"] are different keys. *)
Inductive pykey :=
  | KInt (z : Z)
  | KStr (s : string).

#[export] Instance pykey_eq_dec : EqDecision pykey.
Proof. solve_decision. Defined.

(** A [dict] is the list of its items in insertion order. *)
Section Dict.
Context {K V : Type} `{EqDecision K}.

(** [d[k] = v]: an existing key keeps its place and takes the new value,
    a new key goes to the end. *)
Fixpoint dict_setitem (k : K) (v : V) (d : list (K * V)) : list (K * V) :=
  match d with
  | [] => [(k, v)]
  | (k', v') :: d' =>
      if decide (k = k') then (k', v) :: d'
      else (k', v') :: dict_setitem k v d'
  end.

(** A dict built from a sequence of items, as a comprehension or
    [dict(pairs)] does. *)
Definition dict_of_items (items : list (K * V)) : list (K * V) :=
  fold_left (fun d kv => dict_setitem kv.1 kv.2 d) items [].

(** [d.get(k)]: [None] where [d[k]] raises [KeyError]. *)
Fixpoint dict_get (k : K) (d : list (K * V)) : option V :=
  match d with
  | [] => None
  | (k', v) :: d' => if decide (k = k') then Some v else dict_get k d'
  end.

(** [d.values()] *)
Definition dict_values (d : list (K * V)) : list V := snd <$> d.

(** [d.keys()] *)
Definition dict_keys (d : list (K * V)) : list K := fst <$> d.
End Dict.

Section Values.
Context {num : Type} `{PyFloat num}.

(** The built-in [sum]: a left fold of [+] from 0. *)
Definition py_sum (xs : list num) : num := fold_left f_add xs f_zero.

(** ** JSON documents *)

(** The two shapes [json.dumps] is applied to: a mapping of strings to
    numbers and a list of numbers. *)
Inductive json :=
  | JObject (members : list (string * num))
  | JArray (items : list num).

(** What [json.loads] returns. *)
Inductive pyvalue :=
  | PyDict (d : list (pykey * num))
  | PyList (l : list num).

Definition json_dumps_dict (d : list (string * num)) : json := JObject d.
Definition json_dumps_list (l : list num) : json := JArray l.

(** The decoder builds the dict member by member; every key is a [str]. *)
Definition json_loads (j : json) : pyvalue :=
  match j with
  | JObject members =>
      PyDict (dict_of_items ((fun kv => (KStr kv.1, kv.2)) <$> members))
  | JArray items => PyList items
  end.

(** [v[k]] on a loaded value; [None] where Python raises ([KeyError],
    [IndexError], [TypeError]). A list takes an integer index, counted
    from the end when negative. *)
Definition py_getitem (v : pyvalue) (k : pykey) : option num :=
  match v with
  | PyDict d => dict_get k d
  | PyList l =>
      match k with
      | KInt i =>
          let j := if i <? 0 then i + Z.of_nat (length l) else i in
          if j <? 0 then None else l !! Z.to_nat j
      | KStr _ => None
      end
  end.

(** ** The tables of [init_db] *)

Record snapshot_row := {
  snap_id : Z;                    (* INTEGER PRIMARY KEY AUTOINCREMENT *)
  snap_block_number : Z;
  snap_timestamp : Z;             (* DEFAULT CURRENT_TIMESTAMP *)
  snap_total_miners : Z;
  snap_total_volume : num;
  snap_scores_json : json;
  snap_volumes_json : json
}.

Record miner_row := {
  md_uid : Z;                     (* INTEGER PRIMARY KEY *)
  md_hotkey : string;
  md_coldkey : string;
  md_evm_address : option string;
  md_daily_volumes_json : option json;
  md_weighted_volume : num;
  md_score : num;
  md_last_updated : Z
}.

Record bet_event_row := {
  be_id : Z;                      (* INTEGER PRIMARY KEY AUTOINCREMENT *)
  be_evm_address : string;
  be_game_id : Z;
  be_amount : num;
  be_side : Z;
  be_block_number : Z;
  be_timestamp : Z
}.

Record wallet_row := {
  wm_id : Z;                      (* INTEGER PRIMARY KEY AUTOINCREMENT *)
  wm_coldkey : string;            (* UNIQUE *)
  wm_evm_address : string;
  wm_signature : string;
  wm_message : string;
  wm_timestamp : Z;
  wm_verified_at : Z
}.

Record database := {
  snapshots : list snapshot_row;
  snapshots_seq : Z;
  miner_data : list miner_row;
  bet_events : list bet_event_row;
  bet_events_seq : Z;
  wallet_mappings : list wallet_row;
  wallet_mappings_seq : Z
}.

(** The file after [init_db] on a fresh path. *)
Definition empty_db : database :=
  {| snapshots := []; snapshots_seq := 0;
     miner_data := [];
     bet_events := []; bet_events_seq := 0;
     wallet_mappings := []; wallet_mappings_seq := 0 |}.

(** AUTOINCREMENT: one more than the largest rowid the table has ever
    held (the larger of the [sqlite_sequence] counter and the largest
    rowid present). *)
Definition max_rowid {A} (rowid : A -> Z) (rows : list A) : Z :=
  fold_right (fun r m => Z.max (rowid r) m) 0 rows.

Definition autoincrement {A} (rowid : A -> Z) (seq : Z) (rows : list A) : Z :=
  Z.max seq (max_rowid rowid rows) + 1.

(** [ORDER BY id DESC]: rows by decreasing rowid; rows with equal keys
    stay in the order of the table scan. *)
Fixpoint insert_desc {A} (rowid : A -> Z) (x : A) (l : list A) : list A :=
  match l with
  | [] => [x]
  | y :: l' =>
      if rowid y <=? rowid x then x :: y :: l'
      else y :: insert_desc rowid x l'
  end.

Definition order_by_desc {A} (rowid : A -> Z) (rows : list A) : list A :=
  fold_right (insert_desc rowid) [] rows.

(** [LIMIT n]: a negative [n] is no limit. *)
Definition sql_limit {A} (n : Z) (rows : list A) : list A :=
  if n <? 0 then rows else take (Z.to_nat n) rows.
End Values.

Arguments json : clear implicits.
Arguments pyvalue : clear implicits.
Arguments snapshot_row : clear implicits.
Arguments miner_row : clear implicits.
Arguments bet_event_row : clear implicits.
Arguments wallet_row : clear implicits.
Arguments database : clear implicits.

(** ** Calls: clock, storage faults, log *)

(** Where the storage engine can fail during a call. *)
Inductive fault_point :=
  | AtConnect     (* [sqlite3.connect] *)
  | AtExecute     (* [cursor.execute] *)
  | AtCommit.     (* [conn.commit] *)

#[export] Instance fault_point_eq_dec : EqDecision fault_point.
Proof. solve_decision. Defined.

Inductive exn :=
  | OperationalError (p : fault_point)   (* raised by the engine *)
  | ProgrammingError.                    (* use of a closed connection *)

(** What a call reads from its surroundings. *)
Record env := {
  utcnow_timestamp : Z;      (* [int(datetime.utcnow().timestamp())]: the naive
                                UTC time read as local time *)
  current_timestamp : Z;     (* SQL CURRENT_TIMESTAMP *)
  storage_fault : option fault_point
}.

(** The messages of the [bt.logging] calls, with the interpolated values. *)
Inductive message :=
  | SnapshotSaved (block_number : Z)
  | ErrorCachingBetEvent (e : exn)
  | CleanedUp (deleted : Z)
  | WalletMappingSaved (coldkey10 evm_address10 : string)
  | FailedToSaveWalletMapping (e : exn).

Inductive level := INFO | DEBUG | ERROR.

Definition log_entry : Type := level * message.

Inductive outcome (A : Type) :=
  | Returned (a : A)
  | Raised (e : exn).
Arguments Returned {A} a.
Arguments Raised {A} e.

Section Monad.
Context {num : Type}.

(** The committed file, the open connection's view of it (if any) and
    the log written so far. *)
Record state := {
  st_db : database num;
  st_conn : option (database num);
  st_log : list log_entry
}.

Definition M (A : Type) : Type := env -> state -> outcome A * state.

Definition ret {A} (a : A) : M A := fun _ s => (Returned a, s).

Definition bind {A B} (m : M A) (f : A -> M B) : M B :=
  fun e s =>
    match m e s with
    | (Returned a, s') => f a e s'
    | (Raised x, s') => (Raised x, s')
    end.

Definition raise {A} (x : exn) : M A := fun _ s => (Raised x, s).

(** [try: m  except Exception as e: h e] *)
Definition try_except {A} (m : M A) (h : exn -> M A) : M A :=
  fun e s =>
    match m e s with
    | (Returned a, s') => (Returned a, s')
    | (Raised x, s') => h x e s'
    end.

(** [try: m  finally: fin] *)
Definition try_finally {A} (m : M A) (fin : M unit) : M A :=
  fun e s =>
    let '(o, s') := m e s in
    match fin e s' with
    | (Returned _, s'') => (o, s'')
    | (Raised x, s'') => (Raised x, s'')
    end.

(** [_get_connection()] *)
Definition _get_connection : M unit :=
  fun e s =>
    match storage_fault e with
    | Some AtConnect => (Raised (OperationalError AtConnect), s)
    | _ => (Returned tt,
            {| st_db := st_db s; st_conn := Some (st_db s); st_log := st_log s |})
    end.

(** [cursor.execute] of a statement that writes: the statement sees
    CURRENT_TIMESTAMP and yields the new table contents and
    [cursor.rowcount]. *)
Definition execute_dml (stmt : Z -> database num -> database num * Z) : M Z :=
  fun e s =>
    match st_conn s with
    | None => (Raised ProgrammingError, s)
    | Some view =>
        match storage_fault e with
        | Some AtExecute => (Raised (OperationalError AtExecute), s)
        | _ =>
            let '(view', rowcount) := stmt (current_timestamp e) view in
            (Returned rowcount,
             {| st_db := st_db s; st_conn := Some view'; st_log := st_log s |})
        end
    end.

(** [cursor.execute] of a SELECT: the rows the cursor will fetch. *)
Definition execute_select {R} (query : database num -> list R) : M (list R) :=
  fun e s =>
    match st_conn s with
    | None => (Raised ProgrammingError, s)
    | Some view =>
        match storage_fault e with
        | Some AtExecute => (Raised (OperationalError AtExecute), s)
        | _ => (Returned (query view), s)
        end
    end.

(** [cursor.fetchone()] and [cursor.fetchall()] *)
Definition fetchone {R} (rows : list R) : option R := head rows.
Definition fetchall {R} (rows : list R) : list R := rows.

(** [conn.commit()] *)
Definition commit : M unit :=
  fun e s =>
    match st_conn s with
    | None => (Raised ProgrammingError, s)
    | Some view =>
        match storage_fault e with
        | Some AtCommit => (Raised (OperationalError AtCommit), s)
        | _ => (Returned tt,
                {| st_db := view; st_conn := Some view; st_log := st_log s |})
        end
    end.

(** [conn.close()]: what was not committed is dropped. *)
Definition close : M unit :=
  fun _ s =>
    (Returned tt, {| st_db := st_db s; st_conn := None; st_log := st_log s |}).

(** [bt.logging.<level>(...)] *)
Definition logging (lv : level) (msg : message) : M unit :=
  fun _ s =>
    (Returned tt,
     {| st_db := st_db s; st_conn := st_conn s;
        st_log := st_log s ++ [(lv, msg)] |}).

(** [int(datetime.utcnow().timestamp())] *)
Definition utcnow : M Z := fun e s => (Returned (utcnow_timestamp e), s).

(** What the caller of a function observes: how the call ended, the file
    it left (a connection still open when an exception escapes is rolled
    back) and the log lines it wrote. *)
Record result (A : Type) := {
  res_outcome : outcome A;
  res_db : database num;
  res_log : list log_entry
}.

Definition run {A} (m : M A) (e : env) (db : database num) : result A :=
  let '(o, s) := m e {| st_db := db; st_conn := None; st_log := [] |} in
  {| res_outcome := o; res_db := st_db s; res_log := st_log s |}.
End Monad.

Arguments state : clear implicits.
Arguments M : clear implicits.
Arguments result : clear implicits.
Arguments res_outcome {num A} r.
Arguments res_db {num A} r.
Arguments res_log {num A} r.

Notation "x <- m ;; k" := (bind m (fun x => k))
  (at level 100, m at next level, right associativity, only parsing).
Notation "m ;; k" := (bind m (fun _ => k))
  (at level 100, right associativity, only parsing).

(** ** The data-access functions *)

Section Functions.
Context {num : Type} `{PyFloat num}.

Local Abbreviation database := (database num).
Local Abbreviation M := (M num).

(** *** Snapshots *)

(** INSERT INTO snapshots (block_number, total_miners, total_volume,
    scores_json, volumes_json) VALUES (?, ?, ?, ?, ?) *)
Definition sql_insert_snapshot (block_number total_miners : Z)
    (total_volume : num) (scores_json volumes_json : json num)
    (now : Z) (db : database) : database * Z :=
  let id := autoincrement snap_id (snapshots_seq db) (snapshots db) in
  ({| snapshots := snapshots db ++
        [{| snap_id := id;
            snap_block_number := block_number;
            snap_timestamp := now;
            snap_total_miners := total_miners;
            snap_total_volume := total_volume;
            snap_scores_json := scores_json;
            snap_volumes_json := volumes_json |}];
      snapshots_seq := id;
      miner_data := miner_data db;
      bet_events := bet_events db;
      bet_events_seq := bet_events_seq db;
      wallet_mappings := wallet_mappings db;
      wallet_mappings_seq := wallet_mappings_seq db |}, 1).

(** [save_snapshot(block_number, scores, volumes)]; the optional
    [miner_details] argument is not used by the body. *)
Definition save_snapshot (block_number : Z)
    (scores volumes : list (Z * num)) : M unit :=
  _get_connection ;;
  let scores_json :=
    json_dumps_dict (dict_of_items ((fun kv => (py_str kv.1, kv.2)) <$> scores)) in
  let volumes_json :=
    json_dumps_dict (dict_of_items ((fun kv => (py_str kv.1, kv.2)) <$> volumes)) in
  execute_dml
    (sql_insert_snapshot block_number
       (Z.of_nat (length (List.filter f_gt_zero (dict_values scores))))
       (py_sum (dict_values volumes))
       scores_json volumes_json) ;;
  commit ;;
  close ;;
  logging INFO (SnapshotSaved block_number).

(** The dict [get_latest_snapshot] returns. *)
Record snapshot_dict := {
  sd_block_number : Z;
  sd_timestamp : Z;
  sd_total_miners : Z;
  sd_total_volume : num;
  sd_scores : pyvalue num;
  sd_volumes : pyvalue num
}.

Definition snapshot_dict_of_row (row : snapshot_row num) : snapshot_dict :=
  {| sd_block_number := snap_block_number row;
     sd_timestamp := snap_timestamp row;
     sd_total_miners := snap_total_miners row;
     sd_total_volume := snap_total_volume row;
     sd_scores := json_loads (snap_scores_json row);
     sd_volumes := json_loads (snap_volumes_json row) |}.

(** SELECT ... FROM snapshots ORDER BY id DESC LIMIT 1 *)
Definition get_latest_snapshot : M (option snapshot_dict) :=
  _get_connection ;;
  rows <- execute_select
            (fun db => sql_limit 1 (order_by_desc snap_id (snapshots db))) ;;
  let row := fetchone rows in
  close ;;
  ret (match row with
       | Some r => Some (snapshot_dict_of_row r)
       | None => None
       end).

(** The summary dict of [get_snapshots]. *)
Record snapshot_summary := {
  ss_block_number : Z;
  ss_timestamp : Z;
  ss_total_miners : Z;
  ss_total_volume : num
}.

Definition snapshot_summary_of_row (r : snapshot_row num) : snapshot_summary :=
  {| ss_block_number := snap_block_number r;
     ss_timestamp := snap_timestamp r;
     ss_total_miners := snap_total_miners r;
     ss_total_volume := snap_total_volume r |}.

(** SELECT ... FROM snapshots ORDER BY id DESC LIMIT ? *)
Definition get_snapshots (limit : Z) : M (list snapshot_summary) :=
  _get_connection ;;
  rows <- execute_select
            (fun db => sql_limit limit (order_by_desc snap_id (snapshots db))) ;;
  let rows := fetchall rows in
  close ;;
  ret (snapshot_summary_of_row <$> rows).

(** *** Miner data *)

(** INSERT OR REPLACE INTO miner_data (...) VALUES (?, ..., CURRENT_TIMESTAMP):
    the row holding the primary key, if any, is deleted and the new row
    inserted. *)
Definition sql_insert_or_replace_miner (uid : Z) (hotkey coldkey : string)
    (evm_address : option string) (daily_volumes_json : json num)
    (weighted_volume score : num) (now : Z) (db : database) : database * Z :=
  ({| snapshots := snapshots db;
      snapshots_seq := snapshots_seq db;
      miner_data :=
        filter (fun r => md_uid r <> uid) (miner_data db) ++
        [{| md_uid := uid;
            md_hotkey := hotkey;
            md_coldkey := coldkey;
            md_evm_address := evm_address;
            md_daily_volumes_json := Some daily_volumes_json;
            md_weighted_volume := weighted_volume;
            md_score := score;
            md_last_updated := now |}];
      bet_events := bet_events db;
      bet_events_seq := bet_events_seq db;
      wallet_mappings := wallet_mappings db;
      wallet_mappings_seq := wallet_mappings_seq db |}, 1).

Definition update_miner_data (uid : Z) (hotkey coldkey : string)
    (evm_address : option string) (daily_volumes : list num)
    (weighted_volume score : num) : M unit :=
  _get_connection ;;
  execute_dml
    (sql_insert_or_replace_miner uid hotkey coldkey evm_address
       (json_dumps_list daily_volumes) weighted_volume score) ;;
  commit ;;
  close.

Record miner_dict := {
  mi_uid : Z;
  mi_hotkey : string;
  mi_coldkey : string;
  mi_evm_address : option string;
  mi_daily_volumes : pyvalue num;
  mi_weighted_volume : num;
  mi_score : num;
  mi_last_updated : Z
}.

Definition miner_dict_of_row (row : miner_row num) : miner_dict :=
  {| mi_uid := md_uid row;
     mi_hotkey := md_hotkey row;
     mi_coldkey := md_coldkey row;
     mi_evm_address := md_evm_address row;
     mi_daily_volumes :=
       match md_daily_volumes_json row with
       | Some j => json_loads j
       | None => PyList []
       end;
     mi_weighted_volume := md_weighted_volume row;
     mi_score := md_score row;
     mi_last_updated := md_last_updated row |}.

(** SELECT ... FROM miner_data WHERE uid = ? *)
Definition get_miner_data (uid : Z) : M (option miner_dict) :=
  _get_connection ;;
  rows <- execute_select
            (fun db => filter (fun r => md_uid r = uid) (miner_data db)) ;;
  let row := fetchone rows in
  close ;;
  ret (match row with
       | Some r => Some (miner_dict_of_row r)
       | None => None
       end).

(** *** Bet events *)

(** The columns of UNIQUE(evm_address, game_id, block_number, side). *)
Definition bet_key (r : bet_event_row num) : string * Z * Z * Z :=
  (be_evm_address r, be_game_id r, be_block_number r, be_side r).

(** INSERT OR IGNORE INTO bet_events (...) VALUES (?, ?, ?, ?, ?, ?): a row
    that would break the UNIQUE constraint is skipped. The rowid is drawn
    before the constraint is checked, so the [sqlite_sequence] counter
    moves on also when the row is skipped. *)
Definition sql_insert_or_ignore_bet_event (evm_address : string) (game_id : Z)
    (amount : num) (side block_number timestamp : Z)
    (now : Z) (db : database) : database * Z :=
  let id := autoincrement be_id (bet_events_seq db) (bet_events db) in
  if decide ((evm_address, game_id, block_number, side)
             ∈ bet_key <$> bet_events db)
  then
    ({| snapshots := snapshots db;
        snapshots_seq := snapshots_seq db;
        miner_data := miner_data db;
        bet_events := bet_events db;
        bet_events_seq := id;
        wallet_mappings := wallet_mappings db;
        wallet_mappings_seq := wallet_mappings_seq db |}, 0)
  else
    ({| snapshots := snapshots db;
        snapshots_seq := snapshots_seq db;
        miner_data := miner_data db;
        bet_events := bet_events db ++
          [{| be_id := id;
              be_evm_address := evm_address;
              be_game_id := game_id;
              be_amount := amount;
              be_side := side;
              be_block_number := block_number;
              be_timestamp := timestamp |}];
        bet_events_seq := id;
        wallet_mappings := wallet_mappings db;
        wallet_mappings_seq := wallet_mappings_seq db |}, 1).

Definition cache_bet_event (evm_address : string) (game_id : Z) (amount : num)
    (side block_number timestamp : Z) : M unit :=
  _get_connection ;;
  try_finally
    (try_except
       (execute_dml
          (sql_insert_or_ignore_bet_event evm_address game_id amount side
             block_number timestamp) ;;
        commit)
       (fun e => logging DEBUG (ErrorCachingBetEvent e)))
    close.

(** DELETE FROM bet_events WHERE timestamp < ? *)
Definition sql_delete_old_events (cutoff : Z) (now : Z) (db : database)
    : database * Z :=
  ({| snapshots := snapshots db;
      snapshots_seq := snapshots_seq db;
      miner_data := miner_data db;
      bet_events := filter (fun r => ~ be_timestamp r < cutoff) (bet_events db);
      bet_events_seq := bet_events_seq db;
      wallet_mappings := wallet_mappings db;
      wallet_mappings_seq := wallet_mappings_seq db |},
   Z.of_nat (length (filter (fun r => be_timestamp r < cutoff) (bet_events db)))).

(** [cleanup_old_events(days)]. The body ends without a [return]: the call
    evaluates to Python's [None], here [None : option Z] (an integer result
    would be [Some n]). *)
Definition cleanup_old_events (days : Z) : M (option Z) :=
  _get_connection ;;
  now <- utcnow ;;
  let cutoff := now - days * 86400 in
  deleted <- execute_dml (sql_delete_old_events cutoff) ;;
  commit ;;
  close ;;
  (if 0 <? deleted then logging INFO (CleanedUp deleted) else ret tt) ;;
  ret None.


(** *** Wallet mappings *)

(** INSERT OR REPLACE INTO wallet_mappings (...) VALUES (?, ..., CURRENT_TIMESTAMP):
    the row holding the same [coldkey] (UNIQUE), if any, is deleted and the
    new row inserted under a fresh id. *)
Definition sql_insert_or_replace_wallet (coldkey evm_address signature msg : string)
    (timestamp : Z) (now : Z) (db : database) : database * Z :=
  let id := autoincrement wm_id (wallet_mappings_seq db) (wallet_mappings db) in
  ({| snapshots := snapshots db;
      snapshots_seq := snapshots_seq db;
      miner_data := miner_data db;
      bet_events := bet_events db;
      bet_events_seq := bet_events_seq db;
      wallet_mappings :=
        filter (fun r => wm_coldkey r <> coldkey) (wallet_mappings db) ++
        [{| wm_id := id;
            wm_coldkey := coldkey;
            wm_evm_address := evm_address;
            wm_signature := signature;
            wm_message := msg;
            wm_timestamp := timestamp;
            wm_verified_at := now |}];
      wallet_mappings_seq := id |}, 1).

Definition save_wallet_mapping (coldkey evm_address signature msg : string)
    (timestamp : Z) : M bool :=
  _get_connection ;;
  try_finally
    (try_except
       (execute_dml
          (sql_insert_or_replace_wallet coldkey (lower evm_address)
             signature msg timestamp) ;;
        commit ;;
        logging INFO
          (WalletMappingSaved (str_prefix 10 coldkey) (str_prefix 10 evm_address)) ;;
        ret true)
       (fun e =>
          logging ERROR (FailedToSaveWalletMapping e) ;;
          ret false))
    close.

Record wallet_dict := {
  wd_coldkey : string;
  wd_evm_address : string;
  wd_signature : string;
  wd_message : string;
  wd_timestamp : Z;
  wd_verified_at : Z
}.

Definition wallet_dict_of_row (row : wallet_row) : wallet_dict :=
  {| wd_coldkey := wm_coldkey row;
     wd_evm_address := wm_evm_address row;
     wd_signature := wm_signature row;
     wd_message := wm_message row;
     wd_timestamp := wm_timestamp row;
     wd_verified_at := wm_verified_at row |}.

(** SELECT ... FROM wallet_mappings WHERE coldkey = ? *)
Definition get_wallet_mapping (coldkey : string) : M (option wallet_dict) :=
  _get_connection ;;
  rows <- execute_select
            (fun db => filter (fun r => wm_coldkey r = coldkey) (wallet_mappings db)) ;;
  let row := fetchone rows in
  close ;;
  ret (match row with
       | Some r => Some (wallet_dict_of_row r)
       | None => None
       end).

Definition get_evm_address_for_coldkey (coldkey : string) : M (option string) :=
  mapping <- get_wallet_mapping coldkey ;;
  ret (match mapping with
       | Some m => Some (wd_evm_address m)
       | None => None
       end).

(** DELETE FROM wallet_mappings WHERE coldkey = ? *)
Definition sql_delete_wallet (coldkey : string) (now : Z) (db : database)
    : database * Z :=
  ({| snapshots := snapshots db;
      snapshots_seq := snapshots_seq db;
      miner_data := miner_data db;
      bet_events := bet_events db;
      bet_events_seq := bet_events_seq db;
      wallet_mappings := filter (fun r => wm_coldkey r <> coldkey) (wallet_mappings db);
      wallet_mappings_seq := wallet_mappings_seq db |},
   Z.of_nat (length (filter (fun r => wm_coldkey r = coldkey) (wallet_mappings db)))).

Definition delete_wallet_mapping (coldkey : string) : M bool :=
  _get_connection ;;
  rowcount <- execute_dml (sql_delete_wallet coldkey) ;;
  let deleted := 0 <? rowcount in
  commit ;;
  close ;;
  ret deleted.

(** ** Histories of the store *)

(** The calls that write. *)
Inductive call :=
  | SaveSnapshot (block_number : Z) (scores volumes : list (Z * num))
  | UpdateMinerData (uid : Z) (hotkey coldkey : string)
      (evm_address : option string) (daily_volumes : list num)
      (weighted_volume score : num)
  | CacheBetEvent (evm_address : string) (game_id : Z) (amount : num)
      (side block_number timestamp : Z)
  | CleanupOldEvents (days : Z)
  | SaveWalletMapping (coldkey evm_address signature msg : string) (timestamp : Z)
  | DeleteWalletMapping (coldkey : string).

(** The file a call leaves behind. *)
Definition exec (c : call) (e : env) (db : database) : database :=
  match c with
  | SaveSnapshot b s v => res_db (run (save_snapshot b s v) e db)
  | UpdateMinerData u h c a d w s =>
      res_db (run (update_miner_data u h c a d w s) e db)
  | CacheBetEvent a g m s b t => res_db (run (cache_bet_event a g m s b t) e db)
  | CleanupOldEvents d => res_db (run (cleanup_old_events d) e db)
  | SaveWalletMapping c a s m t => res_db (run (save_wallet_mapping c a s m t) e db)
  | DeleteWalletMapping c => res_db (run (delete_wallet_mapping c) e db)
  end.

(** A history: calls with the clock and faults each one met. *)
Definition exec_all (h : list (call * env)) (db : database) : database :=
  fold_left (fun d ce => exec ce.1 ce.2 d) h db.

(** The files the functions can produce from a fresh one. *)
Inductive reachable : database -> Prop :=
  | reachable_init : reachable empty_db
  | reachable_step db c e : reachable db -> reachable (exec c e db).

(** ** The uniqueness constraints of the schema *)

(** UNIQUE(evm_address, game_id, block_number, side) *)
Definition bet_events_unique (db : database) : Prop :=
  NoDup (bet_key <$> bet_events db).

(** uid INTEGER PRIMARY KEY *)
Definition miner_data_unique (db : database) : Prop :=
  NoDup (md_uid <$> miner_data db).

(** coldkey TEXT NOT NULL UNIQUE *)
Definition wallet_mappings_unique (db : database) : Prop :=
  NoDup (wm_coldkey <$> wallet_mappings db).

End Functions.

(** ** The other readers *)

(** The comparison of two floats, as ORDER BY applies it to REAL columns. *)
Class PyFloatOrder (num : Type) := {
  f_lt : num -> num -> bool        (* [<] *)
}.

#[export] Instance Z_PyFloatOrder : PyFloatOrder Z := {| f_lt := Z.ltb |}.

(** ORDER BY ... DESC under a comparison [lt] of rows: a row goes after
    the rows that are greater than it and before the others, so that rows
    that compare equal stay in the order of the table scan. *)
Fixpoint insert_by {A} (lt : A -> A -> bool) (x : A) (l : list A) : list A :=
  match l with
  | [] => [x]
  | y :: l' => if lt x y then y :: insert_by lt x l' else x :: y :: l'
  end.

Definition order_by {A} (lt : A -> A -> bool) (rows : list A) : list A :=
  fold_right (insert_by lt) [] rows.

Section Readers.
Context {num : Type} `{PyFloat num} `{PyFloatOrder num}.

Local Abbreviation database := (database num).
Local Abbreviation M := (M num).

(** SELECT ... FROM snapshots WHERE block_number = ?: the first match of
    the table scan. *)
Definition get_snapshot_by_block (block_number : Z) : M (option snapshot_dict) :=
  _get_connection ;;
  rows <- execute_select
            (fun db => filter (fun r => snap_block_number r = block_number)
                         (snapshots db)) ;;
  let row := fetchone rows in
  close ;;
  ret (match row with
       | Some r => Some (snapshot_dict_of_row r)
       | None => None
       end).

(** The scan of a table whose primary key is its rowid: rows by
    increasing key, whatever the order in which they were written. *)
Definition scan_by_rowid {A} (rowid : A -> Z) (rows : list A) : list A :=
  reverse (order_by_desc rowid rows).

(** SELECT ... FROM miner_data ORDER BY score DESC *)
Definition get_all_miner_data : M (list miner_dict) :=
  _get_connection ;;
  rows <- execute_select
            (fun db => order_by (fun y x => f_lt (md_score y) (md_score x))
                         (scan_by_rowid md_uid (miner_data db))) ;;
  let rows := fetchall rows in
  close ;;
  ret (miner_dict_of_row <$> rows).

(** The dict of one cached event: the address and the id are not
    selected. *)
Record bet_event_dict := {
  bd_game_id : Z;
  bd_amount : num;
  bd_side : Z;
  bd_block_number : Z;
  bd_timestamp : Z
}.

Definition bet_event_dict_of_row (r : bet_event_row num) : bet_event_dict :=
  {| bd_game_id := be_game_id r;
     bd_amount := be_amount r;
     bd_side := be_side r;
     bd_block_number := be_block_number r;
     bd_timestamp := be_timestamp r |}.

(** SELECT ... FROM bet_events WHERE evm_address = ? AND timestamp >= ?
    ORDER BY timestamp DESC *)
Definition sql_select_bet_events (evm_address : string) (since_timestamp : Z)
    (db : database) : list (bet_event_row num) :=
  order_by_desc be_timestamp
    (filter (fun r => be_evm_address r = evm_address /\ since_timestamp <= be_timestamp r)
       (bet_events db)).

Definition get_cached_bet_events (evm_address : string) (since_timestamp : Z)
    : M (list bet_event_dict) :=
  _get_connection ;;
  rows <- execute_select (sql_select_bet_events evm_address since_timestamp) ;;
  let rows := fetchall rows in
  close ;;
  ret (bet_event_dict_of_row <$> rows).

(** The summary dict of [get_all_wallet_mappings]: no signature, no
    message. *)
Record wallet_summary := {
  ws_coldkey : string;
  ws_evm_address : string;
  ws_timestamp : Z;
  ws_verified_at : Z
}.

Definition wallet_summary_of_row (r : wallet_row) : wallet_summary :=
  {| ws_coldkey := wm_coldkey r;
     ws_evm_address := wm_evm_address r;
     ws_timestamp := wm_timestamp r;
     ws_verified_at := wm_verified_at r |}.

(** SELECT ... FROM wallet_mappings ORDER BY verified_at DESC *)
Definition get_all_wallet_mappings : M (list wallet_summary) :=
  _get_connection ;;
  rows <- execute_select
            (fun db => order_by_desc wm_verified_at (wallet_mappings db)) ;;
  let rows := fetchall rows in
  close ;;
  ret (wallet_summary_of_row <$> rows).

(** ** Further invariants of the tables *)

(** Row ids grow along the snapshots table. *)
Definition snapshots_increasing (db : database) : Prop :=
  StronglySorted (fun x y => snap_id x < snap_id y) (snapshots db).

(** Every stored wallet address is its own lower-case form. *)
Definition wallet_addresses_lower (db : database) : Prop :=
  Forall (fun r => lower (wm_evm_address r) = wm_evm_address r) (wallet_mappings db).

End Readers.

(** ** Sample inputs *)

(** A call at clock reading [now] that meets no storage fault. *)
Definition calm (now : Z) : env :=
  {| utcnow_timestamp := now; current_timestamp := now; storage_fault := None |}.

(** A call at clock reading [now] during which the engine fails at [p]. *)
Definition faulty (now : Z) (p : fault_point) : env :=
  {| utcnow_timestamp := now; current_timestamp := now; storage_fault := Some p |}.

(** A history of fault-free calls on a fresh file, and the file it leaves:
    two snapshots, two miners, three cached events and two wallet
    mappings. *)
Definition sample_history : list (@call Z * env) :=
  [ (SaveSnapshot 100 [(1, 5); (2, 0)] [(1, 10); (2, 20)], calm 1000);
    (SaveSnapshot 90 [(1, 7)] [(1, 3)], calm 1060);
    (UpdateMinerData 1 "hk1" "ck1" (Some "0xaa") [1; 2] 3 5, calm 1100);
    (UpdateMinerData 2 "hk2" "ck2" None [] 0 9, calm 1101);
    (CacheBetEvent "0xa" 1 5 0 10 790399, calm 1200);
    (CacheBetEvent "0xa" 2 6 1 11 790400, calm 1201);
    (CacheBetEvent "0xB" 3 7 1 12 800000, calm 1202);
    (SaveWalletMapping "5Grw" "0xABC" "sig" "msg" 1700, calm 1300);
    (SaveWalletMapping "5Fhx" "0xDeF" "sig2" "msg2" 1800, calm 1400) ].

Definition sample_db : database Z := exec_all sample_history empty_db.

(** Decides a closed, decidable proposition by evaluation. *)
Ltac by_evaluation :=
  match goal with
  | |- ?P => refine (@bool_decide_unpack P _ _); vm_compute; exact I
  end.

(** * Properties *)

(** ** Dicts *)

Section DictFacts.
Context {K V : Type} `{EqDecision K}.
Implicit Types (d items : list (K * V)).

Lemma dict_setitem_fresh k v d :
  k ∉ dict_keys d -> dict_setitem k v d = d ++ [(k, v)].
Proof.
  unfold dict_keys. induction d as [|[k' v'] d IH]; simpl; intros Hk; [done|].
  apply not_elem_of_cons in Hk as [Hne Hk].
  destruct (decide (k = k')) as [->|_]; [done|]. by rewrite IH.
Qed.

Lemma dict_of_items_acc items d :
  NoDup (dict_keys (d ++ items)) ->
  fold_left (fun d kv => dict_setitem kv.1 kv.2 d) items d = d ++ items.
Proof.
  unfold dict_keys. revert d.
  induction items as [|[k v] items IH]; intros d Hnd; simpl.
  - by rewrite app_nil_r.
  - rewrite fmap_app in Hnd. simpl in Hnd.
    assert (k ∉ dict_keys d) as Hk.
    { apply NoDup_app in Hnd as (_ & Hdisj & _).
      intros Hin. apply (Hdisj k Hin). left. }
    rewrite (dict_setitem_fresh k v d Hk).
    rewrite IH; rewrite <- app_assoc; simpl; [done|].
    by rewrite fmap_app.
Qed.

(** A sequence of items with distinct keys is its own dict. *)
Lemma dict_of_items_NoDup items :
  NoDup (dict_keys items) -> dict_of_items items = items.
Proof. intros Hnd. unfold dict_of_items. by rewrite dict_of_items_acc. Qed.

Lemma dict_get_elem_of k v d :
  NoDup (dict_keys d) -> (k, v) ∈ d -> dict_get k d = Some v.
Proof.
  unfold dict_keys. induction d as [|[k' v'] d IH]; simpl; intros Hnd Hin.
  - by apply elem_of_nil in Hin.
  - apply NoDup_cons in Hnd as [Hk' Hnd].
    apply elem_of_cons in Hin as [Heq|Hin].
    + inversion Heq; subst. by rewrite decide_True.
    + destruct (decide (k = k')) as [->|_]; [|by apply IH].
      exfalso. apply Hk'. by apply (list_elem_of_fmap_2 fst _ (k', v)).
Qed.

(** Renaming the keys of the items renames the keys. *)
Lemma dict_keys_rename {K'} (g : K -> K') d :
  dict_keys ((fun kv => (g kv.1, kv.2)) <$> d) = g <$> dict_keys d.
Proof.
  unfold dict_keys. induction d as [|[k v] d IH]; csimpl; [done|].
  by rewrite IH.
Qed.

Lemma dict_get_None k d : k ∉ dict_keys d -> dict_get k d = None.
Proof.
  unfold dict_keys. induction d as [|[k' v'] d IH]; simpl; intros Hk; [done|].
  apply not_elem_of_cons in Hk as [Hne Hk]. by rewrite decide_False, IH.
Qed.
End DictFacts.

(** ** Row ids and ORDER BY *)

Section RowFacts.
Context {A : Type} (rowid : A -> Z).
Implicit Types (rows : list A).

Lemma max_rowid_ge rows r : r ∈ rows -> rowid r <= max_rowid rowid rows.
Proof.
  induction rows as [|x rows IH]; simpl; intros Hin.
  - by apply elem_of_nil in Hin.
  - apply elem_of_cons in Hin as [->|Hin]; [lia|]. specialize (IH Hin). lia.
Qed.

(** A fresh id is above every id of the table. *)
Lemma autoincrement_gt seq rows r :
  r ∈ rows -> rowid r < autoincrement rowid seq rows.
Proof. intros Hin. apply max_rowid_ge in Hin. unfold autoincrement. lia. Qed.

Lemma insert_desc_below x y l :
  rowid x < rowid y -> insert_desc rowid x (y :: l) = y :: insert_desc rowid x l.
Proof. intros Hlt. simpl. destruct (Z.leb_spec (rowid y) (rowid x)); [lia|done]. Qed.

Lemma sql_limit_one_cons (x : A) l : sql_limit 1 (x :: l) = [x].
Proof. reflexivity. Qed.

(** A row whose id is above all others comes first under ORDER BY id DESC,
    wherever it sits in the table. *)
Lemma order_by_desc_snoc rows x :
  (forall r, r ∈ rows -> rowid r < rowid x) ->
  order_by_desc rowid (rows ++ [x]) = x :: order_by_desc rowid rows.
Proof.
  unfold order_by_desc. rewrite foldr_app. simpl.
  induction rows as [|a rows IH]; intros Hlt; simpl; [done|].
  rewrite IH by (intros r Hr; apply Hlt; by right).
  apply insert_desc_below, Hlt. left.
Qed.
End RowFacts.

(** ** What each call does *)

Section Properties.
Context {num : Type} `{PyFloat num}.

Local Abbreviation database := (database num).
Implicit Types (db : database) (e : env).

#[local] Instance py_str_inj : Inj (=) (=) py_str.
Proof. unfold py_str. apply _. Qed.

#[local] Instance KStr_inj : Inj (=) (=) KStr.
Proof. by intros s1 s2 [= ->]. Qed.

(** The string-keyed dict [save_snapshot] serialises. *)
Lemma str_keys_dict (d : list (Z * num)) :
  NoDup (dict_keys d) ->
  dict_of_items ((fun kv => (py_str kv.1, kv.2)) <$> d)
  = (fun kv => (py_str kv.1, kv.2)) <$> d.
Proof.
  intros Hnd. apply dict_of_items_NoDup.
  rewrite dict_keys_rename. by apply (NoDup_fmap_2 py_str).
Qed.

(** Dumping the dict of a mapping with distinct integer keys and loading
    it again gives the same values under the keys' strings. *)
Lemma json_roundtrip_dict (d : list (Z * num)) :
  NoDup (dict_keys d) ->
  json_loads (json_dumps_dict (dict_of_items ((fun kv => (py_str kv.1, kv.2)) <$> d)))
  = PyDict ((fun kv => (KStr (py_str kv.1), kv.2)) <$> d).
Proof.
  intros Hnd. rewrite str_keys_dict by done. simpl. f_equal.
  rewrite <- list_fmap_compose.
  apply dict_of_items_NoDup.
  change (NoDup (dict_keys ((fun kv => ((KStr ∘ py_str) kv.1, kv.2)) <$> d))).
  rewrite dict_keys_rename.
  by apply (NoDup_fmap_2 (KStr ∘ py_str)).
Qed.

Lemma run_save_snapshot e db b scores volumes :
  run (save_snapshot b scores volumes) e db =
  match storage_fault e with
  | None =>
      {| res_outcome := Returned tt;
         res_db :=
           (sql_insert_snapshot b
              (Z.of_nat (length (List.filter f_gt_zero (dict_values scores))))
              (py_sum (dict_values volumes))
              (json_dumps_dict
                 (dict_of_items ((fun kv => (py_str kv.1, kv.2)) <$> scores)))
              (json_dumps_dict
                 (dict_of_items ((fun kv => (py_str kv.1, kv.2)) <$> volumes)))
              (current_timestamp e) db).1;
         res_log := [(INFO, SnapshotSaved b)] |}
  | Some p =>
      {| res_outcome := Raised (OperationalError p); res_db := db; res_log := [] |}
  end.
Proof.
  unfold run, save_snapshot, bind, _get_connection, execute_dml, commit, close,
    logging.
  simpl. destruct (storage_fault e) as [[]|]; reflexivity.
Qed.

Lemma run_get_latest_snapshot e db :
  storage_fault e = None ->
  run get_latest_snapshot e db =
  {| res_outcome :=
       Returned (snapshot_dict_of_row <$>
                 head (sql_limit 1 (order_by_desc snap_id (snapshots db))));
     res_db := db; res_log := [] |}.
Proof.
  intros He.
  unfold run, get_latest_snapshot, bind, _get_connection, execute_select, close,
    ret, fetchone.
  simpl. rewrite He. simpl.
  by destruct (head _).
Qed.

Lemma run_get_snapshots e db limit :
  storage_fault e = None ->
  run (get_snapshots limit) e db =
  {| res_outcome :=
       Returned (snapshot_summary_of_row <$>
                 sql_limit limit (order_by_desc snap_id (snapshots db)));
     res_db := db; res_log := [] |}.
Proof.
  intros He.
  unfold run, get_snapshots, bind, _get_connection, execute_select, close,
    ret, fetchall.
  simpl. by rewrite He.
Qed.

(** After an insert the new row heads the table under ORDER BY id DESC. *)
Lemma snapshots_after_insert b tm tv sj vj now db :
  order_by_desc snap_id (snapshots (sql_insert_snapshot b tm tv sj vj now db).1)
  = {| snap_id := autoincrement snap_id (snapshots_seq db) (snapshots db);
       snap_block_number := b; snap_timestamp := now;
       snap_total_miners := tm; snap_total_volume := tv;
       snap_scores_json := sj; snap_volumes_json := vj |}
    :: order_by_desc snap_id (snapshots db).
Proof.
  simpl. apply order_by_desc_snoc. intros r Hr. simpl.
  by apply autoincrement_gt.
Qed.

(** Reading the latest snapshot right after a write that met no fault. *)
Lemma get_latest_after_save e1 e2 db b (scores volumes : list (Z * num)) :
  storage_fault e1 = None ->
  storage_fault e2 = None ->
  NoDup (dict_keys scores) ->
  NoDup (dict_keys volumes) ->
  res_outcome (run get_latest_snapshot e2
                 (res_db (run (save_snapshot b scores volumes) e1 db))) =
    Returned (Some
      {| sd_block_number := b;
         sd_timestamp := current_timestamp e1;
         sd_total_miners :=
           Z.of_nat (length (List.filter f_gt_zero (dict_values scores)));
         sd_total_volume := py_sum (dict_values volumes);
         sd_scores := PyDict ((fun kv => (KStr (py_str kv.1), kv.2)) <$> scores);
         sd_volumes := PyDict ((fun kv => (KStr (py_str kv.1), kv.2)) <$> volumes) |}).
Proof.
  intros He1 He2 Hs Hv.
  rewrite run_save_snapshot, He1.
  rewrite run_get_latest_snapshot by done.
  cbn [res_outcome res_db]. rewrite snapshots_after_insert, sql_limit_one_cons.
  rewrite <- (json_roundtrip_dict scores), <- (json_roundtrip_dict volumes) by done.
  reflexivity.
Qed.

(** C1. After a call of [save_snapshot] that met no storage fault,
    [get_latest_snapshot] returns the record just written: the block
    number given, the store's time of the write, [total_miners] the number
    of entries of [scores] with a value above 0, [total_volume] the sum of
    the values of [volumes], and the two mappings (under the keys' string
    forms). *)
Theorem save_snapshot_then_get_latest e1 e2 db b (scores volumes : list (Z * num)) :
  storage_fault e1 = None ->
  storage_fault e2 = None ->
  NoDup (dict_keys scores) ->
  NoDup (dict_keys volumes) ->
  let written := run (save_snapshot b scores volumes) e1 db in
  res_outcome written = Returned tt /\
  res_outcome (run get_latest_snapshot e2 (res_db written)) =
    Returned (Some
      {| sd_block_number := b;
         sd_timestamp := current_timestamp e1;
         sd_total_miners :=
           Z.of_nat (length (List.filter f_gt_zero (dict_values scores)));
         sd_total_volume := py_sum (dict_values volumes);
         sd_scores := PyDict ((fun kv => (KStr (py_str kv.1), kv.2)) <$> scores);
         sd_volumes := PyDict ((fun kv => (KStr (py_str kv.1), kv.2)) <$> volumes) |}).
Proof.
  intros He1 He2 Hs Hv written. subst written. split.
  - by rewrite run_save_snapshot, He1.
  - by apply get_latest_after_save.
Qed.

(** A loaded mapping answers under the string of an integer key, and has
    no integer keys. *)
Lemma py_getitem_str_key (d : list (Z * num)) k v :
  NoDup (dict_keys d) -> (k, v) ∈ d ->
  py_getitem (PyDict ((fun kv => (KStr (py_str kv.1), kv.2)) <$> d))
    (KStr (py_str k)) = Some v.
Proof.
  intros Hnd Hin. simpl. apply dict_get_elem_of.
  - change (NoDup (dict_keys ((fun kv => ((KStr ∘ py_str) kv.1, kv.2)) <$> d))).
    rewrite dict_keys_rename. by apply (NoDup_fmap_2 (KStr ∘ py_str)).
  - by apply (list_elem_of_fmap_2 (fun kv => (KStr (py_str kv.1), kv.2)) _ (k, v)).
Qed.

Lemma py_getitem_int_key (d : list (Z * num)) k :
  py_getitem (PyDict ((fun kv => (KStr (py_str kv.1), kv.2)) <$> d)) (KInt k) = None.
Proof.
  simpl. apply dict_get_None.
  change (KInt k ∉ dict_keys ((fun kv => ((KStr ∘ py_str) kv.1, kv.2)) <$> d)).
  rewrite dict_keys_rename. intros Hin.
  apply list_elem_of_fmap in Hin as (z & Hz & _). discriminate Hz.
Qed.

(** C6 (as amended). A value written under the integer key [k] is read
    back under the string [str(k)], for scores and for volumes; the
    snapshot read back has no entry under the integer [k] itself. *)
Theorem snapshot_values_read_back_under_str_keys
    e1 e2 db b (scores volumes : list (Z * num)) :
  storage_fault e1 = None ->
  storage_fault e2 = None ->
  NoDup (dict_keys scores) ->
  NoDup (dict_keys volumes) ->
  exists d,
    res_outcome (run get_latest_snapshot e2
                   (res_db (run (save_snapshot b scores volumes) e1 db)))
      = Returned (Some d) /\
    (forall k v, (k, v) ∈ scores ->
       py_getitem (sd_scores d) (KStr (py_str k)) = Some v /\
       py_getitem (sd_scores d) (KInt k) = None) /\
    (forall k v, (k, v) ∈ volumes ->
       py_getitem (sd_volumes d) (KStr (py_str k)) = Some v /\
       py_getitem (sd_volumes d) (KInt k) = None).
Proof.
  intros He1 He2 Hs Hv. eexists. split.
  - by apply get_latest_after_save.
  - cbn [sd_scores sd_volumes]. split; intros k v Hin; split;
      auto using py_getitem_str_key, py_getitem_int_key.
Qed.

(** C7. Recency is by insertion: after two writes, whatever their block
    numbers (equal, as 100 and 100, or decreasing), [get_snapshots(1)]
    lists the second one only and [get_latest_snapshot] returns it. *)
Theorem snapshot_recency_by_insertion
    e1 e2 e3 e4 db b1 b2 (scores1 volumes1 scores2 volumes2 : list (Z * num)) :
  storage_fault e1 = None -> storage_fault e2 = None ->
  storage_fault e3 = None -> storage_fault e4 = None ->
  NoDup (dict_keys scores2) ->
  NoDup (dict_keys volumes2) ->
  let db1 := res_db (run (save_snapshot b1 scores1 volumes1) e1 db) in
  let db2 := res_db (run (save_snapshot b2 scores2 volumes2) e2 db1) in
  res_outcome (run (get_snapshots 1) e3 db2) =
    Returned
      [{| ss_block_number := b2;
          ss_timestamp := current_timestamp e2;
          ss_total_miners :=
            Z.of_nat (length (List.filter f_gt_zero (dict_values scores2)));
          ss_total_volume := py_sum (dict_values volumes2) |}] /\
  res_outcome (run get_latest_snapshot e4 db2) =
    Returned (Some
      {| sd_block_number := b2;
         sd_timestamp := current_timestamp e2;
         sd_total_miners :=
           Z.of_nat (length (List.filter f_gt_zero (dict_values scores2)));
         sd_total_volume := py_sum (dict_values volumes2);
         sd_scores := PyDict ((fun kv => (KStr (py_str kv.1), kv.2)) <$> scores2);
         sd_volumes := PyDict ((fun kv => (KStr (py_str kv.1), kv.2)) <$> volumes2) |}).
Proof.
  intros He1 He2 He3 He4 Hs Hv db1 db2. split.
  - subst db2. rewrite run_save_snapshot, He2.
    rewrite run_get_snapshots by done.
    cbn [res_outcome res_db].
    by rewrite snapshots_after_insert, sql_limit_one_cons.
  - by apply get_latest_after_save.
Qed.

(** *** Bet events *)

Lemma run_cache_bet_event e db a g m s b t :
  run (cache_bet_event a g m s b t) e db =
  match storage_fault e with
  | None =>
      {| res_outcome := Returned tt;
         res_db := (sql_insert_or_ignore_bet_event a g m s b t
                      (current_timestamp e) db).1;
         res_log := [] |}
  | Some AtConnect =>
      {| res_outcome := Raised (OperationalError AtConnect);
         res_db := db; res_log := [] |}
  | Some p =>
      {| res_outcome := Returned tt; res_db := db;
         res_log := [(DEBUG, ErrorCachingBetEvent (OperationalError p))] |}
  end.
Proof.
  unfold run, cache_bet_event, bind, try_finally, try_except, _get_connection,
    execute_dml, commit, close, logging.
  simpl. destruct (storage_fault e) as [[]|]; simpl; try reflexivity;
    by destruct (sql_insert_or_ignore_bet_event _ _ _ _ _ _ _ _).
Qed.

(** A tuple already cached: the statement changes no row; only the id
    counter of the table moves on. *)
Lemma insert_or_ignore_present a g m s b t now db :
  (a, g, b, s) ∈ bet_key <$> bet_events db ->
  sql_insert_or_ignore_bet_event a g m s b t now db =
  ({| snapshots := snapshots db;
      snapshots_seq := snapshots_seq db;
      miner_data := miner_data db;
      bet_events := bet_events db;
      bet_events_seq := autoincrement be_id (bet_events_seq db) (bet_events db);
      wallet_mappings := wallet_mappings db;
      wallet_mappings_seq := wallet_mappings_seq db |}, 0).
Proof. intros Hin. unfold sql_insert_or_ignore_bet_event. by rewrite decide_True. Qed.

(** A new tuple: one row is appended, under a fresh id. *)
Lemma insert_or_ignore_absent a g m s b t now db :
  (a, g, b, s) ∉ bet_key <$> bet_events db ->
  bet_events (sql_insert_or_ignore_bet_event a g m s b t now db).1
  = bet_events db ++
    [{| be_id := autoincrement be_id (bet_events_seq db) (bet_events db);
        be_evm_address := a; be_game_id := g; be_amount := m; be_side := s;
        be_block_number := b; be_timestamp := t |}].
Proof. intros Hin. unfold sql_insert_or_ignore_bet_event. by rewrite decide_False. Qed.

Lemma insert_or_ignore_unique a g m s b t now db :
  bet_events_unique db ->
  bet_events_unique (sql_insert_or_ignore_bet_event a g m s b t now db).1.
Proof.
  unfold bet_events_unique. intros Hnd.
  destruct (decide ((a, g, b, s) ∈ bet_key <$> bet_events db)) as [Hin|Hin].
  - by rewrite insert_or_ignore_present.
  - rewrite insert_or_ignore_absent by done. rewrite fmap_app.
    apply NoDup_app. split; [done|]. split; [|apply NoDup_singleton].
    intros k Hk Hk'. apply list_elem_of_singleton in Hk'. by subst k.
Qed.

Lemma cache_bet_event_unique e db a g m s b t :
  bet_events_unique db ->
  bet_events_unique (res_db (run (cache_bet_event a g m s b t) e db)).
Proof.
  intros Hnd. rewrite run_cache_bet_event.
  destruct (storage_fault e) as [[]|]; cbn [res_db]; try done.
  by apply insert_or_ignore_unique.
Qed.

(** A call with a tuple already cached leaves the rows of every table as
    they were. *)
Lemma cache_bet_event_present e db a g m s b t :
  (a, g, b, s) ∈ bet_key <$> bet_events db ->
  bet_events (res_db (run (cache_bet_event a g m s b t) e db)) = bet_events db.
Proof.
  intros Hin. rewrite run_cache_bet_event.
  destruct (storage_fault e) as [[]|]; simpl; try done.
  by rewrite insert_or_ignore_present.
Qed.

(** Caching an event, new or not, touches no table but the events. *)
Lemma cache_bet_event_other_tables e db a g m s b t :
  snapshots (res_db (run (cache_bet_event a g m s b t) e db)) = snapshots db /\
  miner_data (res_db (run (cache_bet_event a g m s b t) e db)) = miner_data db /\
  wallet_mappings (res_db (run (cache_bet_event a g m s b t) e db))
  = wallet_mappings db.
Proof.
  rewrite run_cache_bet_event.
  destruct (storage_fault e) as [[]|]; cbn [res_db]; try done.
  unfold sql_insert_or_ignore_bet_event. by case_decide.
Qed.

(** What the skipped insert does change: the next id is drawn and the
    counter keeps it, so the id is not given to a later row. *)
Lemma cache_bet_event_present_counter e db a g m s b t :
  (a, g, b, s) ∈ bet_key <$> bet_events db ->
  storage_fault e = None ->
  bet_events_seq (res_db (run (cache_bet_event a g m s b t) e db))
  = autoincrement be_id (bet_events_seq db) (bet_events db).
Proof.
  intros Hin He. rewrite run_cache_bet_event, He. cbn [res_db].
  by rewrite insert_or_ignore_present.
Qed.

Lemma cache_bet_event_absent e db a g m s b t :
  storage_fault e = None ->
  (a, g, b, s) ∉ bet_key <$> bet_events db ->
  bet_events (res_db (run (cache_bet_event a g m s b t) e db))
  = bet_events db ++
    [{| be_id := autoincrement be_id (bet_events_seq db) (bet_events db);
        be_evm_address := a; be_game_id := g; be_amount := m; be_side := s;
        be_block_number := b; be_timestamp := t |}].
Proof.
  intros He Hin. rewrite run_cache_bet_event, He. simpl.
  by apply insert_or_ignore_absent.
Qed.

Lemma run_cleanup_old_events e db days :
  run (cleanup_old_events days) e db =
  match storage_fault e with
  | None =>
      let cutoff := utcnow_timestamp e - days * 86400 in
      let deleted :=
        Z.of_nat (length (filter (fun r => be_timestamp r < cutoff) (bet_events db))) in
      {| res_outcome := Returned None;
         res_db := (sql_delete_old_events cutoff (current_timestamp e) db).1;
         res_log := if 0 <? deleted then [(INFO, CleanedUp deleted)] else [] |}
  | Some p =>
      {| res_outcome := Raised (OperationalError p); res_db := db; res_log := [] |}
  end.
Proof.
  unfold run, cleanup_old_events, bind, _get_connection, utcnow, execute_dml,
    commit, close, logging, ret.
  simpl. destruct (storage_fault e) as [[]|]; simpl; try reflexivity.
  by destruct (0 <? _).
Qed.

Lemma cleanup_old_events_unique e db days :
  bet_events_unique db ->
  bet_events_unique (res_db (run (cleanup_old_events days) e db)).
Proof.
  intros Hnd. rewrite run_cleanup_old_events.
  destruct (storage_fault e) as [[]|]; simpl; try done.
  unfold bet_events_unique. simpl.
  eapply sublist_NoDup; [exact Hnd|].
  apply fmap_sublist, sublist_filter.
Qed.

(** *** Miner data *)

Lemma run_update_miner_data e db uid hk ck evm dv wv sc :
  run (update_miner_data uid hk ck evm dv wv sc) e db =
  match storage_fault e with
  | None =>
      {| res_outcome := Returned tt;
         res_db := (sql_insert_or_replace_miner uid hk ck evm (json_dumps_list dv)
                      wv sc (current_timestamp e) db).1;
         res_log := [] |}
  | Some p =>
      {| res_outcome := Raised (OperationalError p); res_db := db; res_log := [] |}
  end.
Proof.
  unfold run, update_miner_data, bind, _get_connection, execute_dml, commit, close.
  simpl. destruct (storage_fault e) as [[]|]; reflexivity.
Qed.

Lemma run_get_miner_data e db uid :
  storage_fault e = None ->
  run (get_miner_data uid) e db =
  {| res_outcome :=
       Returned (miner_dict_of_row <$>
                 head (filter (fun r => md_uid r = uid) (miner_data db)));
     res_db := db; res_log := [] |}.
Proof.
  intros He.
  unfold run, get_miner_data, bind, _get_connection, execute_select, close,
    ret, fetchone.
  simpl. rewrite He. simpl. by destruct (head _).
Qed.

(** Filtering a key out and then selecting it finds nothing. *)
Lemma filter_out_then_select {A B} `{EqDecision B} (key : A -> B) (k : B) (l : list A) :
  filter (fun r => key r = k) (filter (fun r => key r <> k) l) = [].
Proof.
  induction l as [|x l IH]; [done|].
  rewrite (filter_cons (fun r => key r <> k)).
  destruct (decide (key x <> k)) as [Hne|_]; [|done].
  by rewrite filter_cons_False.
Qed.

(** After INSERT OR REPLACE the table holds one row for the uid: the new
    one. *)
Lemma miner_rows_after_replace uid hk ck evm dj wv sc now db :
  filter (fun r => md_uid r = uid)
    (miner_data (sql_insert_or_replace_miner uid hk ck evm dj wv sc now db).1)
  = [{| md_uid := uid; md_hotkey := hk; md_coldkey := ck; md_evm_address := evm;
        md_daily_volumes_json := Some dj; md_weighted_volume := wv;
        md_score := sc; md_last_updated := now |}].
Proof.
  simpl. rewrite filter_app, filter_out_then_select. simpl.
  by rewrite filter_cons_True.
Qed.

Lemma insert_or_replace_miner_unique uid hk ck evm dj wv sc now db :
  miner_data_unique db ->
  miner_data_unique (sql_insert_or_replace_miner uid hk ck evm dj wv sc now db).1.
Proof.
  unfold miner_data_unique. simpl. intros Hnd. rewrite fmap_app.
  apply NoDup_app. split; [|split; [|apply NoDup_singleton]].
  - eapply sublist_NoDup; [exact Hnd|]. apply fmap_sublist, sublist_filter.
  - intros u Hu Hu'. apply list_elem_of_singleton in Hu'. subst u.
    apply list_elem_of_fmap in Hu as (r & Hr & Hin).
    apply list_elem_of_filter in Hin as [Hne _]. by apply Hne.
Qed.

Lemma update_miner_data_unique e db uid hk ck evm dv wv sc :
  miner_data_unique db ->
  miner_data_unique (res_db (run (update_miner_data uid hk ck evm dv wv sc) e db)).
Proof.
  intros Hnd. rewrite run_update_miner_data.
  destruct (storage_fault e) as [[]|]; cbn [res_db]; try done.
  by apply insert_or_replace_miner_unique.
Qed.

(** *** Wallet mappings *)

Lemma run_save_wallet_mapping e db ck evm sig msg ts :
  run (save_wallet_mapping ck evm sig msg ts) e db =
  match storage_fault e with
  | None =>
      {| res_outcome := Returned true;
         res_db := (sql_insert_or_replace_wallet ck (lower evm) sig msg ts
                      (current_timestamp e) db).1;
         res_log :=
           [(INFO, WalletMappingSaved (str_prefix 10 ck) (str_prefix 10 evm))] |}
  | Some AtConnect =>
      {| res_outcome := Raised (OperationalError AtConnect);
         res_db := db; res_log := [] |}
  | Some p =>
      {| res_outcome := Returned false; res_db := db;
         res_log := [(ERROR, FailedToSaveWalletMapping (OperationalError p))] |}
  end.
Proof.
  unfold run, save_wallet_mapping, bind, try_finally, try_except, _get_connection,
    execute_dml, commit, close, logging, ret.
  simpl. destruct (storage_fault e) as [[]|]; reflexivity.
Qed.

Lemma run_get_wallet_mapping e db ck :
  storage_fault e = None ->
  run (get_wallet_mapping ck) e db =
  {| res_outcome :=
       Returned (wallet_dict_of_row <$>
                 head (filter (fun r => wm_coldkey r = ck) (wallet_mappings db)));
     res_db := db; res_log := [] |}.
Proof.
  intros He.
  unfold run, get_wallet_mapping, bind, _get_connection, execute_select, close,
    ret, fetchone.
  simpl. rewrite He. simpl. by destruct (head _).
Qed.

Lemma run_get_evm_address_for_coldkey e db ck :
  storage_fault e = None ->
  run (get_evm_address_for_coldkey ck) e db =
  {| res_outcome :=
       Returned (wm_evm_address <$>
                 head (filter (fun r => wm_coldkey r = ck) (wallet_mappings db)));
     res_db := db; res_log := [] |}.
Proof.
  intros He.
  unfold run, get_evm_address_for_coldkey, get_wallet_mapping, bind,
    _get_connection, execute_select, close, ret, fetchone.
  simpl. rewrite He. simpl. by destruct (head _).
Qed.

Lemma wallet_rows_after_replace ck evm sig msg ts now db :
  filter (fun r => wm_coldkey r = ck)
    (wallet_mappings (sql_insert_or_replace_wallet ck evm sig msg ts now db).1)
  = [{| wm_id := autoincrement wm_id (wallet_mappings_seq db) (wallet_mappings db);
        wm_coldkey := ck; wm_evm_address := evm; wm_signature := sig;
        wm_message := msg; wm_timestamp := ts; wm_verified_at := now |}].
Proof.
  simpl. rewrite filter_app, filter_out_then_select. simpl.
  by rewrite filter_cons_True.
Qed.

Lemma run_delete_wallet_mapping e db ck :
  run (delete_wallet_mapping ck) e db =
  match storage_fault e with
  | None =>
      {| res_outcome :=
           Returned (0 <? (sql_delete_wallet ck (current_timestamp e) db).2);
         res_db := (sql_delete_wallet ck (current_timestamp e) db).1;
         res_log := [] |}
  | Some p =>
      {| res_outcome := Raised (OperationalError p); res_db := db; res_log := [] |}
  end.
Proof.
  unfold run, delete_wallet_mapping, bind, _get_connection, execute_dml, commit,
    close, ret.
  simpl. destruct (storage_fault e) as [[]|]; reflexivity.
Qed.

(** *** The constraints hold along every history *)

Lemma exec_bet_events_unique c e db :
  bet_events_unique db -> bet_events_unique (exec c e db).
Proof.
  intros Hnd. destruct c; cbn [exec].
  - rewrite run_save_snapshot. by destruct (storage_fault e) as [[]|].
  - rewrite run_update_miner_data. by destruct (storage_fault e) as [[]|].
  - by apply cache_bet_event_unique.
  - by apply cleanup_old_events_unique.
  - rewrite run_save_wallet_mapping. by destruct (storage_fault e) as [[]|].
  - rewrite run_delete_wallet_mapping. by destruct (storage_fault e) as [[]|].
Qed.

Lemma exec_miner_data_unique c e db :
  miner_data_unique db -> miner_data_unique (exec c e db).
Proof.
  intros Hnd. destruct c; cbn [exec].
  - rewrite run_save_snapshot. by destruct (storage_fault e) as [[]|].
  - by apply update_miner_data_unique.
  - rewrite run_cache_bet_event.
    destruct (storage_fault e) as [[]|]; cbn [res_db]; try done.
    unfold sql_insert_or_ignore_bet_event. by case_decide.
  - rewrite run_cleanup_old_events. by destruct (storage_fault e) as [[]|].
  - rewrite run_save_wallet_mapping. by destruct (storage_fault e) as [[]|].
  - rewrite run_delete_wallet_mapping. by destruct (storage_fault e) as [[]|].
Qed.

Lemma exec_all_bet_events_unique (h : list (call * env)) db :
  bet_events_unique db -> bet_events_unique (exec_all h db).
Proof.
  unfold exec_all. revert db.
  induction h as [|[c e] h IH]; intros db Hnd; simpl; [done|].
  by apply IH, exec_bet_events_unique.
Qed.

Lemma exec_all_miner_data_unique (h : list (call * env)) db :
  miner_data_unique db -> miner_data_unique (exec_all h db).
Proof.
  unfold exec_all. revert db.
  induction h as [|[c e] h IH]; intros db Hnd; simpl; [done|].
  by apply IH, exec_miner_data_unique.
Qed.

(** Every file the functions can produce satisfies both constraints. *)
Lemma reachable_unique db :
  reachable db -> bet_events_unique db /\ miner_data_unique db.
Proof.
  induction 1 as [|db c e _ [IHb IHm]].
  - split; apply NoDup_nil_2.
  - split; [by apply exec_bet_events_unique|by apply exec_miner_data_unique].
Qed.

Lemma filter_key_absent {A B} `{EqDecision B} (key : A -> B) (k : B) (l : list A) :
  k ∉ key <$> l -> filter (fun r => key r = k) l = [].
Proof.
  induction l as [|x l IH]; [done|]. rewrite fmap_cons.
  intros [Hne Hk]%not_elem_of_cons.
  rewrite filter_cons_False by done. by apply IH.
Qed.

(** C2. Starting from a file that satisfies the UNIQUE constraint (a fresh
    one does), after any history of calls no two cached events share
    (evm_address, game_id, block_number, side). Caching a tuple already
    present adds no row and changes no row of any table, and is not an
    error: the call returns normally (whenever the connection could be
    opened) and, absent a storage fault, logs nothing. Caching a tuple
    that differs from a cached one in [side] only appends a further
    row. *)
Theorem bet_events_dedup (h : list (call * env)) db0 :
  bet_events_unique db0 ->
  let db := exec_all h db0 in
  bet_events_unique db /\
  (forall e a g m s b t,
     (a, g, b, s) ∈ bet_key <$> bet_events db ->
     let r := run (cache_bet_event a g m s b t) e db in
     bet_events (res_db r) = bet_events db /\
     (snapshots (res_db r) = snapshots db /\
      miner_data (res_db r) = miner_data db /\
      wallet_mappings (res_db r) = wallet_mappings db) /\
     (storage_fault e <> Some AtConnect -> res_outcome r = Returned tt) /\
     (storage_fault e = None -> res_log r = [])) /\
  (forall e a g m s s' b t,
     (a, g, b, s) ∈ bet_key <$> bet_events db ->
     s' <> s ->
     (a, g, b, s') ∉ bet_key <$> bet_events db ->
     storage_fault e = None ->
     let r := run (cache_bet_event a g m s' b t) e db in
     res_outcome r = Returned tt /\
     bet_events_unique (res_db r) /\
     bet_events (res_db r) = bet_events db ++
       [{| be_id := autoincrement be_id (bet_events_seq db) (bet_events db);
           be_evm_address := a; be_game_id := g; be_amount := m; be_side := s';
           be_block_number := b; be_timestamp := t |}]).
Proof.
  intros Hnd0 db.
  assert (bet_events_unique db) as Hnd by by apply exec_all_bet_events_unique.
  split; [done|]. split.
  - intros e a g m s b t Hin r. subst r. split; [by apply cache_bet_event_present|].
    split; [apply cache_bet_event_other_tables|].
    rewrite run_cache_bet_event.
    split; intros He; destruct (storage_fault e) as [[]|]; done.
  - intros e a g m s s' b t _ _ Hout He r. subst r. split; [|split].
    + by rewrite run_cache_bet_event, He.
    + by apply cache_bet_event_unique.
    + by apply cache_bet_event_absent.
Qed.

(** C10. First writer wins: once a tuple is cached, a later call with the
    same (evm_address, game_id, block_number, side) and another amount or
    timestamp leaves every row of every table as it was; the one row of
    that tuple still carries the amount and the timestamp of the first
    call. *)
Theorem cache_bet_event_first_writer_wins e1 e2 db a g s b m1 t1 m2 t2 :
  (a, g, b, s) ∉ bet_key <$> bet_events db ->
  storage_fault e1 = None ->
  let db1 := res_db (run (cache_bet_event a g m1 s b t1) e1 db) in
  let db2 := res_db (run (cache_bet_event a g m2 s b t2) e2 db1) in
  bet_events db2 = bet_events db1 /\
  (snapshots db2 = snapshots db1 /\
   miner_data db2 = miner_data db1 /\
   wallet_mappings db2 = wallet_mappings db1) /\
  filter (fun r => bet_key r = (a, g, b, s)) (bet_events db2) =
    [{| be_id := autoincrement be_id (bet_events_seq db) (bet_events db);
        be_evm_address := a; be_game_id := g; be_amount := m1; be_side := s;
        be_block_number := b; be_timestamp := t1 |}].
Proof.
  intros Hout He1 db1 db2.
  assert (bet_events db1 = bet_events db ++
    [{| be_id := autoincrement be_id (bet_events_seq db) (bet_events db);
        be_evm_address := a; be_game_id := g; be_amount := m1; be_side := s;
        be_block_number := b; be_timestamp := t1 |}]) as Hdb1
    by by apply cache_bet_event_absent.
  assert (bet_events db2 = bet_events db1) as Hdb2.
  { apply cache_bet_event_present. rewrite Hdb1, fmap_app.
    apply elem_of_app. right. apply list_elem_of_singleton. reflexivity. }
  split; [done|]. split; [apply cache_bet_event_other_tables|].
  rewrite Hdb2, Hdb1, filter_app, filter_key_absent by done.
  by rewrite filter_cons_True.
Qed.

(** *** The retention sweep *)



(** The rows a DELETE removes and the rows it keeps make up the table. *)
Lemma length_filter_complement {A} (P : A -> Prop) `{forall x, Decision (P x)}
    (l : list A) :
  length l = (length (filter P l) + length (filter (fun x => ~ P x) l))%nat.
Proof. by rewrite <- length_app, filter_app_complement. Qed.


(** C9 (as amended). A sweep that meets no storage fault returns nothing
    to its caller (Python's [None]); the number of events removed is
    reported by one INFO log line when it is positive, and a sweep that
    removes none writes no log line. *)
Theorem cleanup_old_events_reports_by_log e db days :
  storage_fault e = None ->
  let r := run (cleanup_old_events days) e db in
  let removed :=
    Z.of_nat (length (bet_events db)) - Z.of_nat (length (bet_events (res_db r))) in
  res_outcome r = Returned None /\
  (0 < removed -> res_log r = [(INFO, CleanedUp removed)]) /\
  (removed = 0 -> res_log r = []).
Proof.
  intros He r removed. subst removed r.
  rewrite run_cleanup_old_events, He. cbn zeta.
  set (cutoff := utcnow_timestamp e - days * 86400).
  cbn [res_outcome res_db res_log sql_delete_old_events fst bet_events].
  rewrite (length_filter_complement (fun r => be_timestamp r < cutoff) (bet_events db)).
  set (n := length (filter (fun r => be_timestamp r < cutoff) (bet_events db))).
  set (k := length (filter _ (bet_events db))).
  replace (Z.of_nat (n + k) - Z.of_nat k) with (Z.of_nat n) by lia.
  split; [done|]. split; intros Hn.
  - by destruct (Z.ltb_spec 0 (Z.of_nat n)); [|lia].
  - by destruct (Z.ltb_spec 0 (Z.of_nat n)); [lia|].
Qed.

(** *** Replace-on-write tables *)

(** C3. Along every history the miner table holds at most one row per
    uid. After two [update_miner_data] calls for one uid the table's only
    row for it is built from the arguments of the second call alone, with
    [last_updated] the store's time of the second call, and
    [get_miner_data] returns exactly that record. *)
Theorem update_miner_data_replaces (h : list (call * env)) db0 e1 e2 e3 uid
    hk1 ck1 evm1 (dv1 : list num) wv1 sc1 hk2 ck2 evm2 (dv2 : list num) wv2 sc2 :
  miner_data_unique db0 ->
  storage_fault e2 = None ->
  storage_fault e3 = None ->
  let db := exec_all h db0 in
  let db1 := res_db (run (update_miner_data uid hk1 ck1 evm1 dv1 wv1 sc1) e1 db) in
  let db2 := res_db (run (update_miner_data uid hk2 ck2 evm2 dv2 wv2 sc2) e2 db1) in
  miner_data_unique db /\ miner_data_unique db1 /\ miner_data_unique db2 /\
  filter (fun r => md_uid r = uid) (miner_data db2) =
    [{| md_uid := uid; md_hotkey := hk2; md_coldkey := ck2;
        md_evm_address := evm2;
        md_daily_volumes_json := Some (json_dumps_list dv2);
        md_weighted_volume := wv2; md_score := sc2;
        md_last_updated := current_timestamp e2 |}] /\
  res_outcome (run (get_miner_data uid) e3 db2) =
    Returned (Some
      {| mi_uid := uid; mi_hotkey := hk2; mi_coldkey := ck2;
         mi_evm_address := evm2; mi_daily_volumes := PyList dv2;
         mi_weighted_volume := wv2; mi_score := sc2;
         mi_last_updated := current_timestamp e2 |}).
Proof.
  intros Hnd0 He2 He3 db db1 db2.
  assert (miner_data_unique db) as Hnd by by apply exec_all_miner_data_unique.
  assert (miner_data_unique db1) as Hnd1 by by apply update_miner_data_unique.
  assert (miner_data_unique db2) as Hnd2 by by apply update_miner_data_unique.
  do 3 (split; [done|]).
  assert (filter (fun r => md_uid r = uid) (miner_data db2) =
    [{| md_uid := uid; md_hotkey := hk2; md_coldkey := ck2;
        md_evm_address := evm2;
        md_daily_volumes_json := Some (json_dumps_list dv2);
        md_weighted_volume := wv2; md_score := sc2;
        md_last_updated := current_timestamp e2 |}]) as Hrows.
  { subst db2. rewrite run_update_miner_data, He2. cbn [res_db].
    apply miner_rows_after_replace. }
  split; [done|].
  rewrite run_get_miner_data by done. cbn [res_outcome]. by rewrite Hrows.
Qed.

(** C4. [save_wallet_mapping] stores the address in lower case: after a
    save that met no storage fault, [get_wallet_mapping] returns the
    mapping with [evm_address.lower()] and [get_evm_address_for_coldkey]
    returns that lower-case address. *)
Theorem save_wallet_mapping_lowercases e1 e2 e3 db ck evm sig msg ts :
  storage_fault e1 = None ->
  storage_fault e2 = None ->
  storage_fault e3 = None ->
  let r := run (save_wallet_mapping ck evm sig msg ts) e1 db in
  res_outcome r = Returned true /\
  res_outcome (run (get_wallet_mapping ck) e2 (res_db r)) =
    Returned (Some
      {| wd_coldkey := ck; wd_evm_address := lower evm; wd_signature := sig;
         wd_message := msg; wd_timestamp := ts;
         wd_verified_at := current_timestamp e1 |}) /\
  res_outcome (run (get_evm_address_for_coldkey ck) e3 (res_db r)) =
    Returned (Some (lower evm)).
Proof.
  intros He1 He2 He3 r. subst r.
  rewrite run_save_wallet_mapping, He1. cbn [res_outcome res_db].
  split; [done|].
  rewrite run_get_wallet_mapping, run_get_evm_address_for_coldkey by done.
  cbn [res_outcome]. by rewrite wallet_rows_after_replace.
Qed.

(** The result of [lower] holds no upper-case ASCII letter. *)
Lemma ascii_lower_not_upper c :
  ~ (65 <= N_of_ascii (ascii_lower c) <= 90)%N.
Proof.
  unfold ascii_lower.
  destruct (N.leb_spec 65 (N_of_ascii c)); destruct (N.leb_spec (N_of_ascii c) 90);
    simpl; try lia.
  rewrite N_ascii_embedding by lia. lia.
Qed.

Lemma lower_idempotent s : lower (lower s) = lower s.
Proof.
  induction s as [|c s IH]; simpl; [done|]. rewrite IH. f_equal.
  pose proof (ascii_lower_not_upper c) as Hc.
  unfold ascii_lower at 1.
  destruct (N.leb_spec 65 (N_of_ascii (ascii_lower c)));
    destruct (N.leb_spec (N_of_ascii (ascii_lower c)) 90); simpl; try done.
  lia.
Qed.

(** What [save_wallet_mapping] and the other writers return under each
    storage fault: [save_wallet_mapping] turns a fault of the statement or
    of the commit into [False], with nothing written, and lets a failure to
    open the connection through; [save_snapshot], [update_miner_data] and
    [cleanup_old_events] let every fault through. *)
Lemma save_wallet_mapping_result e db ck evm sig msg ts
    b (scores volumes : list (Z * num)) uid hk mck mevm (dv : list num) wv sc days :
  let r := run (save_wallet_mapping ck evm sig msg ts) e db in
  match storage_fault e with
  | None => res_outcome r = Returned true
  | Some AtConnect =>
      res_outcome r = Raised (OperationalError AtConnect) /\
      res_db r = db /\ res_log r = []
  | Some p =>
      res_outcome r = Returned false /\
      res_db r = db /\
      res_log r = [(ERROR, FailedToSaveWalletMapping (OperationalError p))]
  end /\
  res_outcome (run (save_snapshot b scores volumes) e db) =
    match storage_fault e with
    | None => Returned tt
    | Some p => Raised (OperationalError p)
    end /\
  res_outcome (run (update_miner_data uid hk mck mevm dv wv sc) e db) =
    match storage_fault e with
    | None => Returned tt
    | Some p => Raised (OperationalError p)
    end /\
  res_outcome (run (cleanup_old_events days) e db) =
    match storage_fault e with
    | None => Returned None
    | Some p => Raised (OperationalError p)
    end.
Proof.
  intros r. subst r.
  rewrite run_save_wallet_mapping, run_save_snapshot, run_update_miner_data,
    run_cleanup_old_events.
  by destruct (storage_fault e) as [[]|].
Qed.

End Properties.

(** * The theorems on concrete calls *)

Lemma save_snapshot_then_get_latest_witness :
  (storage_fault (calm 1000) = None /\
   storage_fault (calm 1001) = None /\
   NoDup (dict_keys [(1, 5); (2, 0); (7, 3)]) /\
   NoDup (dict_keys [(1, 10); (2, 20); (7, 30)])) /\
  res_outcome (run get_latest_snapshot (calm 1001)
    (res_db (run (save_snapshot (num:=Z) 100 [(1, 5); (2, 0); (7, 3)]
                    [(1, 10); (2, 20); (7, 30)]) (calm 1000) empty_db)))
  = Returned (Some
      {| sd_block_number := 100; sd_timestamp := 1000;
         sd_total_miners := 2; sd_total_volume := 60;
         sd_scores := PyDict [(KStr "1", 5); (KStr "2", 0); (KStr "7", 3)];
         sd_volumes := PyDict [(KStr "1", 10); (KStr "2", 20); (KStr "7", 30)] |}).
Proof.
  assert (NoDup (dict_keys [(1, 5); (2, 0); (7, 3)])) as Hs by by_evaluation.
  assert (NoDup (dict_keys [(1, 10); (2, 20); (7, 30)])) as Hv by by_evaluation.
  split; [by repeat split|].
  exact (proj2 (save_snapshot_then_get_latest (calm 1000) (calm 1001) empty_db 100
                  [(1, 5); (2, 0); (7, 3)] [(1, 10); (2, 20); (7, 30)]
                  eq_refl eq_refl Hs Hv)).
Defined.

Lemma snapshot_values_read_back_under_str_keys_witness :
  (storage_fault (calm 1000) = None /\
   storage_fault (calm 1001) = None /\
   NoDup (dict_keys [(1, 5); (-3, 7)]) /\
   NoDup (dict_keys [(1, 10); (-3, 20)])) /\
  exists d,
    res_outcome (run get_latest_snapshot (calm 1001)
      (res_db (run (save_snapshot (num:=Z) 100 [(1, 5); (-3, 7)] [(1, 10); (-3, 20)])
                 (calm 1000) empty_db)))
      = Returned (Some d) /\
    py_getitem (sd_scores d) (KStr "-3") = Some 7 /\
    py_getitem (sd_scores d) (KInt (-3)) = None /\
    py_getitem (sd_volumes d) (KStr "1") = Some 10 /\
    py_getitem (sd_volumes d) (KInt 1) = None.
Proof.
  assert (NoDup (dict_keys [(1, 5); (-3, 7)])) as Hs by by_evaluation.
  assert (NoDup (dict_keys [(1, 10); (-3, 20)])) as Hv by by_evaluation.
  split; [by repeat split|].
  destruct (snapshot_values_read_back_under_str_keys (calm 1000) (calm 1001)
              empty_db 100 [(1, 5); (-3, 7)] [(1, 10); (-3, 20)]
              eq_refl eq_refl Hs Hv) as (d & Hd & Hsc & Hvo).
  exists d. split; [exact Hd|].
  assert ((-3, 7) ∈ [(1, 5); (-3, 7)]) as H3 by by_evaluation.
  assert ((1, 10) ∈ [(1, 10); (-3, 20)]) as H1 by by_evaluation.
  destruct (Hsc _ _ H3) as [Hs1 Hs2]. destruct (Hvo _ _ H1) as [Hv1 Hv2].
  repeat split; assumption.
Defined.

(** C6, as stated, fails: the score written under the integer key 1 is not
    found under the key 1 of the snapshot read back; it is found under the
    string "1". *)
Lemma snapshot_int_key_not_read_back :
  exists d,
    res_outcome (run get_latest_snapshot (calm 1001)
      (res_db (run (save_snapshot (num:=Z) 100 [(1, 5)] [(1, 10)])
                 (calm 1000) empty_db)))
      = Returned (Some d) /\
    dict_get 1 [(1, 5)] = Some 5 /\
    py_getitem (sd_scores d) (KInt 1) = None /\
    py_getitem (sd_scores d) (KStr "1") = Some 5 /\
    py_getitem (sd_volumes d) (KInt 1) = None.
Proof. eexists. split; [vm_compute; reflexivity|]. by vm_compute. Qed.

Lemma snapshot_recency_by_insertion_witness :
  (storage_fault (calm 1000) = None /\ storage_fault (calm 1060) = None /\
   storage_fault (calm 1061) = None /\ storage_fault (calm 1062) = None /\
   NoDup (dict_keys [(1, 0); (2, 9)]) /\ NoDup (dict_keys [(1, 4); (2, 8)])) /\
  res_outcome (run (get_snapshots 1) (calm 1061)
    (res_db (run (save_snapshot (num:=Z) 100 [(1, 0); (2, 9)] [(1, 4); (2, 8)])
               (calm 1060)
       (res_db (run (save_snapshot 100 [(1, 5)] [(1, 10)]) (calm 1000) empty_db)))))
  = Returned [{| ss_block_number := 100; ss_timestamp := 1060;
                 ss_total_miners := 1; ss_total_volume := 12 |}] /\
  res_outcome (run get_latest_snapshot (calm 1062)
    (res_db (run (save_snapshot (num:=Z) 100 [(1, 0); (2, 9)] [(1, 4); (2, 8)])
               (calm 1060)
       (res_db (run (save_snapshot 100 [(1, 5)] [(1, 10)]) (calm 1000) empty_db)))))
  = Returned (Some
      {| sd_block_number := 100; sd_timestamp := 1060;
         sd_total_miners := 1; sd_total_volume := 12;
         sd_scores := PyDict [(KStr "1", 0); (KStr "2", 9)];
         sd_volumes := PyDict [(KStr "1", 4); (KStr "2", 8)] |}).
Proof.
  assert (NoDup (dict_keys [(1, 0); (2, 9)])) as Hs by by_evaluation.
  assert (NoDup (dict_keys [(1, 4); (2, 8)])) as Hv by by_evaluation.
  split; [by repeat split|].
  exact (snapshot_recency_by_insertion (calm 1000) (calm 1060) (calm 1061)
           (calm 1062) empty_db 100 100 [(1, 5)] [(1, 10)]
           [(1, 0); (2, 9)] [(1, 4); (2, 8)]
           eq_refl eq_refl eq_refl eq_refl Hs Hv).
Defined.

Lemma bet_events_dedup_witness :
  bet_events_unique (num:=Z) empty_db /\
  bet_events_unique
    (exec_all [(CacheBetEvent "0xa" 1 5 0 10 100, calm 1000);
               (CacheBetEvent "0xa" 1 5 0 10 100, calm 1001)] empty_db) /\
  bet_events
    (res_db (run (cache_bet_event "0xa" 1 6 0 10 101) (calm 1002)
               (exec_all [(CacheBetEvent "0xa" 1 5 0 10 100, calm 1000);
                          (CacheBetEvent "0xa" 1 5 0 10 100, calm 1001)] empty_db)))
  = [{| be_id := 1; be_evm_address := "0xa"; be_game_id := 1; be_amount := 5;
        be_side := 0; be_block_number := 10; be_timestamp := 100 |}] /\
  res_outcome (run (cache_bet_event "0xa" 1 6 0 10 101) (calm 1002)
            (exec_all [(CacheBetEvent "0xa" 1 5 0 10 100, calm 1000);
                       (CacheBetEvent "0xa" 1 5 0 10 100, calm 1001)] empty_db))
  = Returned tt /\
  bet_events
    (res_db (run (cache_bet_event "0xa" 1 5 1 10 100) (calm 1003)
               (exec_all [(CacheBetEvent "0xa" 1 5 0 10 100, calm 1000);
                          (CacheBetEvent "0xa" 1 5 0 10 100, calm 1001)] empty_db)))
  = [{| be_id := 1; be_evm_address := "0xa"; be_game_id := 1; be_amount := 5;
        be_side := 0; be_block_number := 10; be_timestamp := 100 |};
     {| be_id := 3; be_evm_address := "0xa"; be_game_id := 1; be_amount := 5;
        be_side := 1; be_block_number := 10; be_timestamp := 100 |}].
Proof.
  assert (bet_events_unique (num:=Z) empty_db) as H0 by apply NoDup_nil_2.
  destruct (bet_events_dedup [(CacheBetEvent "0xa" 1 5 0 10 100, calm 1000);
                              (CacheBetEvent "0xa" 1 5 0 10 100, calm 1001)]
              empty_db H0) as (Hu & Hdup & Hside).
  assert (("0xa", 1, 10, 0) ∈ bet_key <$> bet_events
            (exec_all [(CacheBetEvent "0xa" 1 5 0 10 100, calm 1000);
                       (CacheBetEvent "0xa" 1 5 0 10 100, calm 1001)] empty_db))
    as Hin by by_evaluation.
  assert (("0xa", 1, 10, 1) ∉ bet_key <$> bet_events
            (exec_all [(CacheBetEvent "0xa" 1 5 0 10 100, calm 1000);
                       (CacheBetEvent "0xa" 1 5 0 10 100, calm 1001)] empty_db))
    as Hout by by_evaluation.
  destruct (Hdup (calm 1002) "0xa" 1 6 0 10 101 Hin) as (Hsame & _ & Hret & _).
  destruct (Hside (calm 1003) "0xa" 1 5 0 1 10 100 Hin ltac:(discriminate) Hout eq_refl)
    as (_ & _ & Hrows).
  split; [exact H0|]. split; [exact Hu|]. split; [exact Hsame|].
  split; [apply Hret; discriminate|]. exact Hrows.
Defined.

Lemma cache_bet_event_first_writer_wins_witness :
  ((("0xa", 1, 10, 0) ∉ bet_key <$> bet_events (num:=Z) empty_db) /\
   storage_fault (calm 1000) = None) /\
  bet_events
    (res_db (run (cache_bet_event "0xa" 1 9 0 10 777) (calm 1001)
       (res_db (run (cache_bet_event "0xa" 1 5 0 10 100) (calm 1000) empty_db))))
  = [{| be_id := 1; be_evm_address := "0xa"; be_game_id := 1; be_amount := 5;
        be_side := 0; be_block_number := 10; be_timestamp := 100 |}] /\
  filter (fun r => bet_key r = ("0xa", 1, 10, 0))
    (bet_events
       (res_db (run (cache_bet_event "0xa" 1 9 0 10 777) (calm 1001)
          (res_db (run (cache_bet_event "0xa" 1 5 0 10 100) (calm 1000) empty_db)))))
  = [{| be_id := 1; be_evm_address := "0xa"; be_game_id := 1; be_amount := 5;
        be_side := 0; be_block_number := 10; be_timestamp := 100 |}].
Proof.
  assert (("0xa", 1, 10, 0) ∉ bet_key <$> bet_events (num:=Z) empty_db)
    as Hout by by_evaluation.
  split; [by split|].
  destruct (cache_bet_event_first_writer_wins (calm 1000) (calm 1001) empty_db
              "0xa" 1 0 10 5 100 9 777 Hout eq_refl) as (Hsame & _ & Hrow).
  split; [exact Hsame|exact Hrow].
Defined.



Lemma cleanup_old_events_reports_by_log_witness :
  storage_fault (calm 2000000) = None /\
  res_outcome (run (cleanup_old_events (num:=Z) 14) (calm 2000000)
       (exec_all [(CacheBetEvent "0xa" 1 5 0 10 790399, calm 1000);
                  (CacheBetEvent "0xa" 2 6 1 11 790400, calm 1001)] empty_db))
  = Returned None /\
  res_log (run (cleanup_old_events (num:=Z) 14) (calm 2000000)
       (exec_all [(CacheBetEvent "0xa" 1 5 0 10 790399, calm 1000);
                  (CacheBetEvent "0xa" 2 6 1 11 790400, calm 1001)] empty_db))
  = [(INFO, CleanedUp 1)].
Proof.
  split; [reflexivity|].
  destruct (cleanup_old_events_reports_by_log (calm 2000000)
              (exec_all [(CacheBetEvent "0xa" 1 5 0 10 790399, calm 1000);
                         (CacheBetEvent "0xa" 2 6 1 11 790400, calm 1001)] empty_db)
              14 eq_refl) as (Hret & Hpos & _).
  split; [exact Hret|]. apply Hpos. reflexivity.
Defined.

(** C9, as stated, fails: a sweep that removes one event returns [None]
    to its caller, not the count 1; the count appears in the log only. *)
Lemma cleanup_old_events_returns_none :
  length (bet_events (num:=Z)
            (exec_all [(CacheBetEvent "0xa" 1 5 0 10 100, calm 1000)] empty_db)) = 1%nat /\
  bet_events
    (res_db (run (cleanup_old_events (num:=Z) 14) (calm 2000000)
       (exec_all [(CacheBetEvent "0xa" 1 5 0 10 100, calm 1000)] empty_db))) = [] /\
  res_outcome (run (cleanup_old_events (num:=Z) 14) (calm 2000000)
       (exec_all [(CacheBetEvent "0xa" 1 5 0 10 100, calm 1000)] empty_db))
  = Returned None /\
  res_outcome (run (cleanup_old_events (num:=Z) 14) (calm 2000000)
       (exec_all [(CacheBetEvent "0xa" 1 5 0 10 100, calm 1000)] empty_db))
  <> Returned (Some 1) /\
  res_log (run (cleanup_old_events (num:=Z) 14) (calm 2000000)
       (exec_all [(CacheBetEvent "0xa" 1 5 0 10 100, calm 1000)] empty_db))
  = [(INFO, CleanedUp 1)].
Proof. by vm_compute. Qed.

Lemma update_miner_data_replaces_witness :
  (miner_data_unique (num:=Z) empty_db /\
   storage_fault (calm 1060) = None /\ storage_fault (calm 1061) = None) /\
  filter (fun r => md_uid r = 7)
    (miner_data
       (res_db (run (update_miner_data 7 "hk-b" "ck-b" None [4; 5] 9 2) (calm 1060)
          (res_db (run (update_miner_data 7 "hk-a" "ck-a" (Some "0xabc") [1; 2; 3] 6 1)
                     (calm 1000) (exec_all [] empty_db))))))
  = [{| md_uid := 7; md_hotkey := "hk-b"; md_coldkey := "ck-b";
        md_evm_address := None; md_daily_volumes_json := Some (JArray [4; 5]);
        md_weighted_volume := 9; md_score := 2; md_last_updated := 1060 |}] /\
  res_outcome (run (get_miner_data 7) (calm 1061)
       (res_db (run (update_miner_data 7 "hk-b" "ck-b" None [4; 5] 9 2) (calm 1060)
          (res_db (run (update_miner_data 7 "hk-a" "ck-a" (Some "0xabc") [1; 2; 3] 6 1)
                     (calm 1000) (exec_all [] empty_db))))))
  = Returned (Some
      {| mi_uid := 7; mi_hotkey := "hk-b"; mi_coldkey := "ck-b";
         mi_evm_address := None; mi_daily_volumes := PyList [4; 5];
         mi_weighted_volume := 9; mi_score := 2; mi_last_updated := 1060 |}).
Proof.
  assert (miner_data_unique (num:=Z) empty_db) as H0 by apply NoDup_nil_2.
  split; [by repeat split|].
  destruct (update_miner_data_replaces [] empty_db (calm 1000) (calm 1060) (calm 1061)
              7 "hk-a" "ck-a" (Some "0xabc") [1; 2; 3] 6 1
              "hk-b" "ck-b" None [4; 5] 9 2 H0 eq_refl eq_refl)
    as (_ & _ & _ & Hrows & Hget).
  split; [exact Hrows|exact Hget].
Defined.

Lemma save_wallet_mapping_lowercases_witness :
  (storage_fault (calm 1000) = None /\ storage_fault (calm 1001) = None /\
   storage_fault (calm 1002) = None) /\
  res_outcome (run (save_wallet_mapping (num:=Z) "5Grw" "0xABC" "sig" "msg" 1700)
                 (calm 1000) empty_db) = Returned true /\
  res_outcome (run (get_wallet_mapping "5Grw") (calm 1001)
    (res_db (run (save_wallet_mapping (num:=Z) "5Grw" "0xABC" "sig" "msg" 1700)
               (calm 1000) empty_db)))
  = Returned (Some
      {| wd_coldkey := "5Grw"; wd_evm_address := "0xabc"; wd_signature := "sig";
         wd_message := "msg"; wd_timestamp := 1700; wd_verified_at := 1000 |}) /\
  res_outcome (run (get_evm_address_for_coldkey "5Grw") (calm 1002)
    (res_db (run (save_wallet_mapping (num:=Z) "5Grw" "0xABC" "sig" "msg" 1700)
               (calm 1000) empty_db)))
  = Returned (Some "0xabc").
Proof.
  split; [by repeat split|].
  exact (save_wallet_mapping_lowercases (calm 1000) (calm 1001) (calm 1002) empty_db
           "5Grw" "0xABC" "sig" "msg" 1700 eq_refl eq_refl eq_refl).
Defined.

(** C8. The code breaks the claim, and its own docstring ("True if saved
    successfully, False otherwise"), at a call whose connection cannot be
    opened: [_get_connection()] stands before the [try], so
    [save_wallet_mapping] returns no boolean and the fault reaches the
    caller. *)
Lemma save_wallet_mapping_connect_fault_propagates :
  res_outcome (run (save_wallet_mapping (num:=Z) "5Grw" "0xABC" "sig" "msg" 1700)
                 (faulty 1000 AtConnect) empty_db)
  = Raised (OperationalError AtConnect) /\
  forall b : bool,
    res_outcome (run (save_wallet_mapping (num:=Z) "5Grw" "0xABC" "sig" "msg" 1700)
                   (faulty 1000 AtConnect) empty_db)
    <> Returned b.
Proof. split; [reflexivity|]. intros b. discriminate. Qed.

Lemma save_wallet_mapping_commit_fault_example :
  res_outcome (run (save_wallet_mapping (num:=Z) "5Grw" "0xABC" "sig" "msg" 1700)
                 (faulty 1000 AtCommit) empty_db) = Returned false /\
  res_db (run (save_wallet_mapping (num:=Z) "5Grw" "0xABC" "sig" "msg" 1700)
            (faulty 1000 AtCommit) empty_db) = empty_db /\
  res_outcome (run (save_snapshot (num:=Z) 100 [(1, 5)] [(1, 10)])
                 (faulty 1000 AtCommit) empty_db)
  = Raised (OperationalError AtCommit).
Proof.
  destruct (save_wallet_mapping_result (faulty 1000 AtCommit) empty_db
              "5Grw" "0xABC" "sig" "msg" 1700 100 [(1, 5)] [(1, 10)]
              7 "hk" "ck" None [1] 2 3 14)
    as ((Hret & Hdb & _) & Hsnap & _).
  split; [exact Hret|]. split; [exact Hdb|exact Hsnap].
Defined.

(** * Further properties of the layer *)

(** ** ORDER BY *)

Section OrderFacts.
Context {A : Type} (rowid : A -> Z).
Implicit Types (rows l : list A).

Lemma insert_desc_Permutation x l : insert_desc rowid x l ≡ₚ x :: l.
Proof.
  induction l as [|y l IH]; simpl; [done|].
  destruct (rowid y <=? rowid x); [done|]. rewrite IH. apply Permutation_swap.
Qed.

Lemma order_by_desc_Permutation rows : order_by_desc rowid rows ≡ₚ rows.
Proof.
  unfold order_by_desc. induction rows as [|x rows IH]; simpl; [done|].
  by rewrite insert_desc_Permutation, IH.
Qed.

Lemma order_by_desc_length rows :
  length (order_by_desc rowid rows) = length rows.
Proof. by rewrite order_by_desc_Permutation. Qed.

Lemma order_by_desc_elem_of rows r : r ∈ order_by_desc rowid rows <-> r ∈ rows.
Proof. by rewrite order_by_desc_Permutation. Qed.

Lemma insert_desc_sorted x l :
  StronglySorted (fun a b => rowid b <= rowid a) l ->
  StronglySorted (fun a b => rowid b <= rowid a) (insert_desc rowid x l).
Proof.
  induction l as [|y l IH]; simpl; intros Hs.
  - by repeat constructor.
  - apply StronglySorted_inv in Hs as [Hl Hy].
    destruct (Z.leb_spec (rowid y) (rowid x)).
    + constructor; [by constructor|]. constructor; [lia|].
      eapply Forall_impl; [exact Hy|]. simpl. intros. lia.
    + constructor; [by apply IH|].
      rewrite insert_desc_Permutation. constructor; [lia|done].
Qed.

(** The rows come out by decreasing key. *)
Lemma order_by_desc_sorted rows :
  StronglySorted (fun a b => rowid b <= rowid a) (order_by_desc rowid rows).
Proof.
  unfold order_by_desc. induction rows as [|x rows IH]; simpl; [constructor|].
  by apply insert_desc_sorted.
Qed.

Lemma insert_desc_all_above x l :
  Forall (fun y => rowid x < rowid y) l -> insert_desc rowid x l = l ++ [x].
Proof.
  induction l as [|y l IH]; simpl; intros Hall; [done|].
  apply Forall_cons in Hall as [Hy Hall].
  destruct (Z.leb_spec (rowid y) (rowid x)); [lia|]. by rewrite IH.
Qed.

(** A table whose keys grow is read backwards. *)
Lemma order_by_desc_increasing rows :
  StronglySorted (fun a b => rowid a < rowid b) rows ->
  order_by_desc rowid rows = reverse rows.
Proof.
  unfold order_by_desc. induction rows as [|x rows IH]; simpl; intros Hs; [done|].
  apply StronglySorted_inv in Hs as [Hs Hx].
  rewrite IH by done. rewrite reverse_cons.
  apply insert_desc_all_above. by rewrite Forall_reverse.
Qed.
End OrderFacts.

Section OrderByFacts.
Context {A : Type} (lt : A -> A -> bool).
Implicit Types (rows l : list A).

Lemma insert_by_Permutation x l : insert_by lt x l ≡ₚ x :: l.
Proof.
  induction l as [|y l IH]; simpl; [done|].
  destruct (lt x y); [|done]. rewrite IH. apply Permutation_swap.
Qed.

Lemma order_by_Permutation rows : order_by lt rows ≡ₚ rows.
Proof.
  unfold order_by. induction rows as [|x rows IH]; simpl; [done|].
  by rewrite insert_by_Permutation, IH.
Qed.

Hypothesis lt_asym : forall a b, lt a b = true -> lt b a = false.
Hypothesis not_lt_trans :
  forall a b c, lt a b = false -> lt b c = false -> lt a c = false.

Lemma insert_by_sorted x l :
  StronglySorted (fun a b => lt a b = false) l ->
  StronglySorted (fun a b => lt a b = false) (insert_by lt x l).
Proof.
  induction l as [|y l IH]; simpl; intros Hs.
  - by repeat constructor.
  - apply StronglySorted_inv in Hs as [Hl Hy].
    destruct (lt x y) eqn:Hxy.
    + constructor; [by apply IH|].
      rewrite insert_by_Permutation. constructor; [by apply lt_asym|done].
    + constructor; [by constructor|]. constructor; [done|].
      eapply Forall_impl; [exact Hy|]. simpl. intros z Hz.
      by eapply not_lt_trans.
Qed.

Lemma order_by_sorted rows :
  StronglySorted (fun a b => lt a b = false) (order_by lt rows).
Proof.
  unfold order_by. induction rows as [|x rows IH]; simpl; [constructor|].
  by apply insert_by_sorted.
Qed.
End OrderByFacts.

Section MoreProperties.
Context {num : Type} `{PyFloat num} `{PyFloatOrder num}.

Local Abbreviation database := (database num).
Implicit Types (db : database) (e : env) (c : @call num).

(** ** Snapshots *)

Lemma run_get_snapshot_by_block e db b :
  storage_fault e = None ->
  run (get_snapshot_by_block b) e db =
  {| res_outcome :=
       Returned (snapshot_dict_of_row <$>
                 head (filter (fun r => snap_block_number r = b) (snapshots db)));
     res_db := db; res_log := [] |}.
Proof.
  intros He.
  unfold run, get_snapshot_by_block, bind, _get_connection, execute_select, close,
    ret, fetchone.
  simpl. rewrite He. simpl. by destruct (head _).
Qed.

(** What a call does to the snapshots table: nothing, or one row appended
    under a fresh id. *)
Lemma exec_snapshots c e db :
  snapshots (exec c e db) = snapshots db \/
  exists row,
    snapshots (exec c e db) = snapshots db ++ [row] /\
    snap_id row = autoincrement snap_id (snapshots_seq db) (snapshots db).
Proof.
  destruct c; cbn [exec].
  - rewrite run_save_snapshot.
    destruct (storage_fault e) as [[]|]; cbn [res_db]; auto.
    right. eexists. split; reflexivity.
  - left. rewrite run_update_miner_data. by destruct (storage_fault e) as [[]|].
  - left. rewrite run_cache_bet_event.
    destruct (storage_fault e) as [[]|]; cbn [res_db]; try done.
    unfold sql_insert_or_ignore_bet_event. by case_decide.
  - left. rewrite run_cleanup_old_events. by destruct (storage_fault e) as [[]|].
  - left. rewrite run_save_wallet_mapping. by destruct (storage_fault e) as [[]|].
  - left. rewrite run_delete_wallet_mapping. by destruct (storage_fault e) as [[]|].
Qed.

Lemma exec_snapshots_increasing c e db :
  snapshots_increasing db -> snapshots_increasing (exec c e db).
Proof.
  unfold snapshots_increasing. intros Hs.
  destruct (exec_snapshots c e db) as [->|(row & -> & Hid)]; [done|].
  apply StronglySorted_app_2; [|done|by repeat constructor].
  intros r x Hr Hx. apply list_elem_of_singleton in Hx. subst x.
  rewrite Hid. by apply autoincrement_gt.
Qed.

Lemma exec_all_snapshots_increasing (h : list (call * env)) db :
  snapshots_increasing db -> snapshots_increasing (exec_all h db).
Proof.
  unfold exec_all. revert db.
  induction h as [|[c e] h IH]; intros db Hs; simpl; [done|].
  by apply IH, exec_snapshots_increasing.
Qed.

(** X1. [get_latest_snapshot] returns [None] exactly when the snapshots
    table is empty. *)
Theorem get_latest_snapshot_none_iff_empty e db :
  storage_fault e = None ->
  res_outcome (run get_latest_snapshot e db) = Returned None <-> snapshots db = [].
Proof.
  intros He. rewrite run_get_latest_snapshot by done. cbn [res_outcome].
  pose proof (order_by_desc_length snap_id (snapshots db)) as Hlen.
  destruct (order_by_desc snap_id (snapshots db)) as [|x l] eqn:Hsorted.
  - simpl. destruct (snapshots db); [done|discriminate Hlen].
  - rewrite sql_limit_one_cons. simpl.
    destruct (snapshots db); [discriminate Hlen|]. split; discriminate.
Qed.

(** X2. [get_snapshots(limit)] returns [min(limit, n)] summaries of the [n]
    snapshots stored when [limit >= 0] (none for 0), and all [n] when
    [limit] is negative. *)
Theorem get_snapshots_length e db limit :
  storage_fault e = None ->
  exists l,
    res_outcome (run (get_snapshots limit) e db) = Returned l /\
    length l =
      if limit <? 0 then length (snapshots db)
      else Nat.min (Z.to_nat limit) (length (snapshots db)).
Proof.
  intros He. rewrite run_get_snapshots by done. eexists. split; [reflexivity|].
  rewrite length_fmap. unfold sql_limit.
  destruct (limit <? 0).
  - apply order_by_desc_length.
  - by rewrite length_take, order_by_desc_length.
Qed.

(** X3. Row ids grow along the snapshots table after every history of
    calls, so [get_snapshots(limit)] lists the snapshots in the reverse of
    the order in which they were written, newest first. *)
Theorem get_snapshots_newest_first (h : list (call * env)) db0 e limit :
  snapshots_increasing db0 ->
  storage_fault e = None ->
  let db := exec_all h db0 in
  snapshots_increasing db /\
  res_outcome (run (get_snapshots limit) e db) =
    Returned (snapshot_summary_of_row <$> sql_limit limit (reverse (snapshots db))).
Proof.
  intros Hs0 He db.
  assert (snapshots_increasing db) as Hs by by apply exec_all_snapshots_increasing.
  split; [done|].
  rewrite run_get_snapshots by done. cbn [res_outcome].
  by rewrite order_by_desc_increasing.
Qed.

(** X4. Snapshots are append-only: whatever calls follow, with whatever
    faults, the rows already in the snapshots table stay as they are, in
    place, at the head of the table. *)
Theorem snapshots_append_only (h : list (call * env)) db :
  snapshots db `prefix_of` snapshots (exec_all h db).
Proof.
  unfold exec_all. revert db.
  induction h as [|[c e] h IH]; intros db; simpl; [done|].
  etrans; [|apply IH].
  destruct (exec_snapshots c e db) as [->|(row & -> & _)]; [done|].
  by apply prefix_app_r.
Qed.

(** X5. [get_snapshot_by_block(b)] returns [None] exactly when no stored
    snapshot has block number [b]; otherwise it returns the record of a
    stored snapshot whose block number is [b]. *)
Theorem get_snapshot_by_block_exact e db b :
  storage_fault e = None ->
  match res_outcome (run (get_snapshot_by_block b) e db) with
  | Returned None => forall r, r ∈ snapshots db -> snap_block_number r <> b
  | Returned (Some d) =>
      exists r, r ∈ snapshots db /\ snap_block_number r = b /\
                d = snapshot_dict_of_row r
  | Raised _ => False
  end.
Proof.
  intros He. rewrite run_get_snapshot_by_block by done. cbn [res_outcome].
  destruct (filter _ (snapshots db)) as [|r l] eqn:Hf; simpl.
  - intros r Hr Hb.
    assert (r ∈ filter (fun r => snap_block_number r = b) (snapshots db)) as Hin
      by by apply list_elem_of_filter.
    rewrite Hf in Hin. by apply elem_of_nil in Hin.
  - assert (r ∈ filter (fun r => snap_block_number r = b) (snapshots db)) as Hin
      by (rewrite Hf; left).
    apply list_elem_of_filter in Hin as [Hb Hr]. by exists r.
Qed.

(** X6. After a [save_snapshot] under a block number no stored snapshot
    has, [get_snapshot_by_block] of that number returns the record just
    written. *)
Theorem save_snapshot_then_get_by_block e1 e2 db b (scores volumes : list (Z * num)) :
  storage_fault e1 = None ->
  storage_fault e2 = None ->
  NoDup (dict_keys scores) ->
  NoDup (dict_keys volumes) ->
  (forall r, r ∈ snapshots db -> snap_block_number r <> b) ->
  res_outcome (run (get_snapshot_by_block b) e2
                 (res_db (run (save_snapshot b scores volumes) e1 db))) =
    Returned (Some
      {| sd_block_number := b;
         sd_timestamp := current_timestamp e1;
         sd_total_miners :=
           Z.of_nat (length (List.filter f_gt_zero (dict_values scores)));
         sd_total_volume := py_sum (dict_values volumes);
         sd_scores := PyDict ((fun kv => (KStr (py_str kv.1), kv.2)) <$> scores);
         sd_volumes := PyDict ((fun kv => (KStr (py_str kv.1), kv.2)) <$> volumes) |}).
Proof.
  intros He1 He2 Hs Hv Hnew.
  rewrite run_save_snapshot, He1.
  rewrite run_get_snapshot_by_block by done.
  cbn [res_outcome res_db sql_insert_snapshot fst snapshots].
  rewrite filter_app.
  assert (filter (fun r => snap_block_number r = b) (snapshots db) = []) as ->.
  { apply (filter_key_absent snap_block_number). intros Hin.
    apply list_elem_of_fmap in Hin as (r & Hb & Hr). by apply (Hnew r). }
  rewrite filter_cons_True by done.
  rewrite <- (json_roundtrip_dict scores), <- (json_roundtrip_dict volumes) by done.
  reflexivity.
Qed.

(** ** Faults and frames *)

(** X7. A writer that meets a storage fault, caught or not, writes
    nothing: the file is what it was before the call. *)
Theorem writer_fault_leaves_file_unchanged c e db p :
  storage_fault e = Some p -> exec c e db = db.
Proof.
  intros He. destruct c; cbn [exec].
  - rewrite run_save_snapshot, He. by destruct p.
  - rewrite run_update_miner_data, He. by destruct p.
  - rewrite run_cache_bet_event, He. by destruct p.
  - rewrite run_cleanup_old_events, He. by destruct p.
  - rewrite run_save_wallet_mapping, He. by destruct p.
  - rewrite run_delete_wallet_mapping, He. by destruct p.
Qed.

(** X8. Each writer touches its own table only: [save_snapshot] leaves
    miners, events and mappings as they were, [update_miner_data] leaves
    snapshots, events and mappings, the two event writers leave snapshots,
    miners and mappings, and the two mapping writers leave snapshots,
    miners and events. *)
Theorem writers_touch_own_table c e db :
  match c with
  | SaveSnapshot _ _ _ =>
      miner_data (exec c e db) = miner_data db /\
      bet_events (exec c e db) = bet_events db /\
      wallet_mappings (exec c e db) = wallet_mappings db
  | UpdateMinerData _ _ _ _ _ _ _ =>
      snapshots (exec c e db) = snapshots db /\
      bet_events (exec c e db) = bet_events db /\
      wallet_mappings (exec c e db) = wallet_mappings db
  | CacheBetEvent _ _ _ _ _ _ | CleanupOldEvents _ =>
      snapshots (exec c e db) = snapshots db /\
      miner_data (exec c e db) = miner_data db /\
      wallet_mappings (exec c e db) = wallet_mappings db
  | SaveWalletMapping _ _ _ _ _ | DeleteWalletMapping _ =>
      snapshots (exec c e db) = snapshots db /\
      miner_data (exec c e db) = miner_data db /\
      bet_events (exec c e db) = bet_events db
  end.
Proof.
  destruct c; cbn [exec].
  - rewrite run_save_snapshot. by destruct (storage_fault e) as [[]|].
  - rewrite run_update_miner_data. by destruct (storage_fault e) as [[]|].
  - rewrite run_cache_bet_event.
    destruct (storage_fault e) as [[]|]; cbn [res_db]; try done.
    unfold sql_insert_or_ignore_bet_event. by case_decide.
  - rewrite run_cleanup_old_events. by destruct (storage_fault e) as [[]|].
  - rewrite run_save_wallet_mapping. by destruct (storage_fault e) as [[]|].
  - rewrite run_delete_wallet_mapping. by destruct (storage_fault e) as [[]|].
Qed.

(** A reader's run, whatever it meets. *)
Ltac run_reader :=
  unfold run, bind, _get_connection, execute_select, close, ret, fetchone, fetchall;
  simpl;
  match goal with
  | |- context [storage_fault ?e] => destruct (storage_fault e) as [[]|]
  end;
  simpl; try done;
  repeat match goal with
         | |- context [head ?l] => destruct (head l)
         end;
  done.

(** X9. The readers never change the file and never log, whether they
    return or raise. *)
Theorem readers_leave_file_unchanged e db uid ck b limit a since :
  (res_db (run get_latest_snapshot e db) = db /\
   res_log (run get_latest_snapshot e db) = []) /\
  (res_db (run (get_snapshots limit) e db) = db /\
   res_log (run (get_snapshots limit) e db) = []) /\
  (res_db (run (get_snapshot_by_block b) e db) = db /\
   res_log (run (get_snapshot_by_block b) e db) = []) /\
  (res_db (run (get_miner_data uid) e db) = db /\
   res_log (run (get_miner_data uid) e db) = []) /\
  (res_db (run get_all_miner_data e db) = db /\
   res_log (run get_all_miner_data e db) = []) /\
  (res_db (run (get_cached_bet_events a since) e db) = db /\
   res_log (run (get_cached_bet_events a since) e db) = []) /\
  (res_db (run (get_wallet_mapping ck) e db) = db /\
   res_log (run (get_wallet_mapping ck) e db) = []) /\
  (res_db (run (get_evm_address_for_coldkey ck) e db) = db /\
   res_log (run (get_evm_address_for_coldkey ck) e db) = []) /\
  (res_db (run get_all_wallet_mappings e db) = db /\
   res_log (run get_all_wallet_mappings e db) = []).
Proof.
  repeat split.
  all: first
    [ unfold get_latest_snapshot; run_reader
    | unfold get_snapshots; run_reader
    | unfold get_snapshot_by_block; run_reader
    | unfold get_miner_data; run_reader
    | unfold get_all_miner_data; run_reader
    | unfold get_cached_bet_events; run_reader
    | unfold get_evm_address_for_coldkey, get_wallet_mapping; run_reader
    | unfold get_wallet_mapping; run_reader
    | unfold get_all_wallet_mappings; run_reader ].
Qed.

(** ** Miner data *)

Lemma filter_key_nil_iff {A B} `{EqDecision B} (key : A -> B) (k : B) (l : list A) :
  filter (fun r => key r = k) l = [] <-> k ∉ key <$> l.
Proof.
  split; [|apply filter_key_absent].
  intros Hnil Hin. apply list_elem_of_fmap in Hin as (r & -> & Hr).
  by apply (filter_nil_not_elem_of _ _ r Hnil).
Qed.

(** Selecting one key after filtering another key out. *)
Lemma filter_select_other {A B} `{EqDecision B} (key : A -> B) (k k' : B) (l : list A) :
  k' <> k ->
  filter (fun r => key r = k') (filter (fun r => key r <> k) l)
  = filter (fun r => key r = k') l.
Proof.
  intros Hne. rewrite list_filter_filter. apply list_filter_iff.
  intros r. split; [by intros [? _]|]. intros Hk. split; [done|]. congruence.
Qed.

Lemma run_get_all_miner_data e db :
  storage_fault e = None ->
  run get_all_miner_data e db =
  {| res_outcome :=
       Returned (miner_dict_of_row <$>
                 order_by (fun y x => f_lt (md_score y) (md_score x))
                   (scan_by_rowid md_uid (miner_data db)));
     res_db := db; res_log := [] |}.
Proof.
  intros He.
  unfold run, get_all_miner_data, bind, _get_connection, execute_select, close,
    ret, fetchall.
  simpl. by rewrite He.
Qed.

(** X10. [get_miner_data(uid)] returns [None] exactly when the table has
    no row for [uid]. *)
Theorem get_miner_data_none_iff_absent e db uid :
  storage_fault e = None ->
  res_outcome (run (get_miner_data uid) e db) = Returned None
  <-> uid ∉ md_uid <$> miner_data db.
Proof.
  intros He. rewrite run_get_miner_data by done. cbn [res_outcome].
  rewrite <- (filter_key_nil_iff md_uid).
  destruct (filter _ (miner_data db)); simpl; split; done.
Qed.

(** X11. An upsert for one uid leaves every other miner's record as it
    was: [get_miner_data(uid')] returns the same before and after. *)
Theorem update_miner_data_other_uid e e' db uid uid' hk ck evm (dv : list num) wv sc :
  uid' <> uid ->
  storage_fault e' = None ->
  res_outcome (run (get_miner_data uid') e'
                 (res_db (run (update_miner_data uid hk ck evm dv wv sc) e db)))
  = res_outcome (run (get_miner_data uid') e' db).
Proof.
  intros Hne He'. rewrite !run_get_miner_data by done. cbn [res_outcome].
  rewrite run_update_miner_data.
  destruct (storage_fault e) as [[]|]; cbn [res_db]; try done.
  cbn [sql_insert_or_replace_miner fst miner_data].
  rewrite filter_app, filter_select_other by done.
  rewrite filter_cons_False by (simpl; congruence).
  by rewrite app_nil_r.
Qed.

(** X12. [get_all_miner_data] returns every miner of the table once, and
    (for a comparison of scores that is asymmetric and whose negation is
    transitive) in an order where no record is followed by one with a
    greater score. *)
Theorem get_all_miner_data_sorted e db :
  storage_fault e = None ->
  (forall a b : num, f_lt a b = true -> f_lt b a = false) ->
  (forall a b c : num, f_lt a b = false -> f_lt b c = false -> f_lt a c = false) ->
  exists l,
    res_outcome (run get_all_miner_data e db) = Returned l /\
    l ≡ₚ miner_dict_of_row <$> miner_data db /\
    StronglySorted (fun x y => f_lt (mi_score x) (mi_score y) = false) l.
Proof.
  intros He Hasym Htrans. rewrite run_get_all_miner_data by done.
  eexists. split; [reflexivity|]. split.
  - unfold scan_by_rowid.
    by rewrite order_by_Permutation, reverse_Permutation, order_by_desc_Permutation.
  - eapply (StronglySorted_fmap _
      (fun x y => f_lt (md_score x) (md_score y) = false)); [by intros x y|].
    apply order_by_sorted; eauto.
Qed.

(** ** Cached events *)

Lemma run_get_cached_bet_events e db a since :
  storage_fault e = None ->
  run (get_cached_bet_events a since) e db =
  {| res_outcome :=
       Returned (bet_event_dict_of_row <$> sql_select_bet_events a since db);
     res_db := db; res_log := [] |}.
Proof.
  intros He.
  unfold run, get_cached_bet_events, bind, _get_connection, execute_select, close,
    ret, fetchall.
  simpl. by rewrite He.
Qed.

Lemma elem_of_select_bet_events a since db r :
  r ∈ sql_select_bet_events a since db <->
  r ∈ bet_events db /\ be_evm_address r = a /\ since <= be_timestamp r.
Proof.
  unfold sql_select_bet_events.
  rewrite order_by_desc_elem_of, list_elem_of_filter. tauto.
Qed.

(** X13. [get_cached_bet_events(a, since)] returns the cached events of
    address [a] with [timestamp >= since], each once and no others, latest
    first. *)
Theorem get_cached_bet_events_exact e db a since :
  storage_fault e = None ->
  exists rows,
    res_outcome (run (get_cached_bet_events a since) e db)
      = Returned (bet_event_dict_of_row <$> rows) /\
    rows ≡ₚ filter (fun r => be_evm_address r = a /\ since <= be_timestamp r)
              (bet_events db) /\
    StronglySorted (fun x y => be_timestamp y <= be_timestamp x) rows.
Proof.
  intros He. rewrite run_get_cached_bet_events by done.
  exists (sql_select_bet_events a since db). split; [done|].
  unfold sql_select_bet_events. split.
  - apply order_by_desc_Permutation.
  - apply order_by_desc_sorted.
Qed.

(** X14. An event cached for the first time is reported by
    [get_cached_bet_events] for its address and any [since] up to its
    timestamp. *)
Theorem cache_then_get_cached e1 e2 db a g m s b t since :
  (a, g, b, s) ∉ bet_key <$> bet_events db ->
  storage_fault e1 = None ->
  storage_fault e2 = None ->
  since <= t ->
  exists l,
    res_outcome (run (get_cached_bet_events a since) e2
                   (res_db (run (cache_bet_event a g m s b t) e1 db)))
      = Returned l /\
    {| bd_game_id := g; bd_amount := m; bd_side := s; bd_block_number := b;
       bd_timestamp := t |} ∈ l.
Proof.
  intros Hout He1 He2 Hsince. rewrite run_get_cached_bet_events by done.
  eexists. split; [reflexivity|].
  apply list_elem_of_fmap.
  exists {| be_id := autoincrement be_id (bet_events_seq db) (bet_events db);
            be_evm_address := a; be_game_id := g; be_amount := m; be_side := s;
            be_block_number := b; be_timestamp := t |}.
  split; [done|]. apply elem_of_select_bet_events.
  rewrite cache_bet_event_absent by done.
  split; [|done]. apply elem_of_app. right. apply list_elem_of_singleton. done.
Qed.

(** X15. The cache keys addresses as given, without folding case: caching
    an event under address [a] changes nothing in what
    [get_cached_bet_events] returns for any other address [a'], also one
    that differs from [a] in letter case only. *)
Theorem cache_bet_event_other_address e e' db a a' g m s b t since :
  a' <> a ->
  storage_fault e' = None ->
  res_outcome (run (get_cached_bet_events a' since) e'
                 (res_db (run (cache_bet_event a g m s b t) e db)))
  = res_outcome (run (get_cached_bet_events a' since) e' db).
Proof.
  intros Hne He'. rewrite !run_get_cached_bet_events by done. cbn [res_outcome].
  do 2 f_equal. unfold sql_select_bet_events. f_equal.
  destruct (decide ((a, g, b, s) ∈ bet_key <$> bet_events db)) as [Hin|Hout].
  - by rewrite cache_bet_event_present.
  - rewrite run_cache_bet_event.
    destruct (storage_fault e) as [[]|]; cbn [res_db]; try done.
    rewrite insert_or_ignore_absent by done.
    rewrite filter_app, filter_cons_False; [by rewrite app_nil_r|].
    simpl. intros [Ha _]. by apply Hne.
Qed.

(** X16. After a sweep, [get_cached_bet_events] returns what it returned
    before except the events older than the sweep's cutoff. *)
Theorem cleanup_then_get_cached e1 e2 db days a since :
  storage_fault e1 = None ->
  storage_fault e2 = None ->
  let cutoff := utcnow_timestamp e1 - days * 86400 in
  exists before after,
    res_outcome (run (get_cached_bet_events a since) e2 db) = Returned before /\
    res_outcome (run (get_cached_bet_events a since) e2
                   (res_db (run (cleanup_old_events days) e1 db)))
      = Returned after /\
    forall d, d ∈ after <-> d ∈ before /\ cutoff <= bd_timestamp d.
Proof.
  intros He1 He2 cutoff. rewrite !run_get_cached_bet_events by done.
  do 2 eexists. split; [reflexivity|]. split; [reflexivity|].
  intros d. rewrite !list_elem_of_fmap.
  rewrite run_cleanup_old_events, He1. cbn zeta. fold cutoff. cbn [res_db].
  split.
  - intros (r & -> & Hr). apply elem_of_select_bet_events in Hr as (Hr & Ha & Ht).
    simpl in Hr. apply list_elem_of_filter in Hr as [Hc Hr].
    split; [|simpl; lia]. exists r. split; [done|].
    by apply elem_of_select_bet_events.
  - intros [(r & -> & Hr) Hc]. simpl in Hc.
    apply elem_of_select_bet_events in Hr as (Hr & Ha & Ht).
    exists r. split; [done|]. apply elem_of_select_bet_events.
    split; [|done]. simpl. apply list_elem_of_filter. split; [lia|done].
Qed.

(** ** Wallet mappings *)

Lemma filter_out_absent {A B} `{EqDecision B} (key : A -> B) (k : B) (l : list A) :
  k ∉ key <$> l -> filter (fun r => key r <> k) l = l.
Proof.
  induction l as [|x l IH]; [done|]. rewrite fmap_cons.
  intros [Hne Hk]%not_elem_of_cons.
  rewrite filter_cons_True by done. by rewrite IH.
Qed.

Lemma Forall_filter_keep {A} (P Q : A -> Prop) `{forall x, Decision (Q x)}
    (l : list A) :
  Forall P l -> Forall P (filter Q l).
Proof.
  rewrite !Forall_forall. intros Hall x Hx.
  apply list_elem_of_filter in Hx as [_ Hx]. by apply Hall.
Qed.

Lemma insert_or_replace_wallet_unique ck evm sig msg ts now db :
  wallet_mappings_unique db ->
  wallet_mappings_unique (sql_insert_or_replace_wallet ck evm sig msg ts now db).1.
Proof.
  unfold wallet_mappings_unique. simpl. intros Hnd. rewrite fmap_app.
  apply NoDup_app. split; [|split; [|apply NoDup_singleton]].
  - eapply sublist_NoDup; [exact Hnd|]. apply fmap_sublist, sublist_filter.
  - intros k Hk Hk'. apply list_elem_of_singleton in Hk'. subst k.
    apply list_elem_of_fmap in Hk as (r & Hr & Hin).
    apply list_elem_of_filter in Hin as [Hne _]. by apply Hne.
Qed.

Lemma exec_wallet_mappings_unique c e db :
  wallet_mappings_unique db -> wallet_mappings_unique (exec c e db).
Proof.
  intros Hnd. destruct c; cbn [exec].
  - rewrite run_save_snapshot. by destruct (storage_fault e) as [[]|].
  - rewrite run_update_miner_data. by destruct (storage_fault e) as [[]|].
  - rewrite run_cache_bet_event.
    destruct (storage_fault e) as [[]|]; cbn [res_db]; try done.
    unfold sql_insert_or_ignore_bet_event. by case_decide.
  - rewrite run_cleanup_old_events. by destruct (storage_fault e) as [[]|].
  - rewrite run_save_wallet_mapping.
    destruct (storage_fault e) as [[]|]; cbn [res_db]; try done.
    by apply insert_or_replace_wallet_unique.
  - rewrite run_delete_wallet_mapping.
    destruct (storage_fault e) as [[]|]; cbn [res_db]; try done.
    unfold wallet_mappings_unique. simpl.
    eapply sublist_NoDup; [exact Hnd|]. apply fmap_sublist, sublist_filter.
Qed.

Lemma exec_wallet_addresses_lower c e db :
  wallet_addresses_lower db -> wallet_addresses_lower (exec c e db).
Proof.
  intros Hlow. destruct c; cbn [exec].
  - rewrite run_save_snapshot. by destruct (storage_fault e) as [[]|].
  - rewrite run_update_miner_data. by destruct (storage_fault e) as [[]|].
  - rewrite run_cache_bet_event.
    destruct (storage_fault e) as [[]|]; cbn [res_db]; try done.
    unfold sql_insert_or_ignore_bet_event. by case_decide.
  - rewrite run_cleanup_old_events. by destruct (storage_fault e) as [[]|].
  - rewrite run_save_wallet_mapping.
    destruct (storage_fault e) as [[]|]; cbn [res_db]; try done.
    unfold wallet_addresses_lower. simpl. apply Forall_app. split.
    + by apply Forall_filter_keep.
    + repeat constructor. simpl. apply lower_idempotent.
  - rewrite run_delete_wallet_mapping.
    destruct (storage_fault e) as [[]|]; cbn [res_db]; try done.
    unfold wallet_addresses_lower. simpl. by apply Forall_filter_keep.
Qed.

Lemma run_get_all_wallet_mappings e db :
  storage_fault e = None ->
  run get_all_wallet_mappings e db =
  {| res_outcome :=
       Returned (wallet_summary_of_row <$>
                 order_by_desc wm_verified_at (wallet_mappings db));
     res_db := db; res_log := [] |}.
Proof.
  intros He.
  unfold run, get_all_wallet_mappings, bind, _get_connection, execute_select,
    close, ret, fetchall.
  simpl. by rewrite He.
Qed.

(** X17. From a file with at most one mapping per coldkey (a fresh one),
    every history of calls leaves at most one mapping per coldkey. *)
Theorem wallet_mappings_unique_along_history (h : list (call * env)) db0 :
  wallet_mappings_unique db0 -> wallet_mappings_unique (exec_all h db0).
Proof.
  unfold exec_all. revert db0.
  induction h as [|[c e] h IH]; intros db Hnd; simpl; [done|].
  by apply IH, exec_wallet_mappings_unique.
Qed.

(** X18. Stored addresses stay in lower case: from a file whose mapped
    addresses are all lower-case (a fresh one), after every history of
    calls any mapping [get_wallet_mapping] returns carries an address
    equal to its own lower-case form. *)
Theorem wallet_addresses_stay_lower (h : list (call * env)) db0 e ck d :
  wallet_addresses_lower db0 ->
  storage_fault e = None ->
  res_outcome (run (get_wallet_mapping ck) e (exec_all h db0)) = Returned (Some d) ->
  lower (wd_evm_address d) = wd_evm_address d.
Proof.
  intros Hlow0 He.
  assert (wallet_addresses_lower (exec_all h db0)) as Hlow.
  { clear He. unfold exec_all. revert db0 Hlow0.
    induction h as [|[c e'] h IH]; intros db Hlow; simpl; [done|].
    by apply IH, exec_wallet_addresses_lower. }
  rewrite run_get_wallet_mapping by done. cbn [res_outcome].
  destruct (head _) as [r|] eqn:Hhead; [|discriminate].
  intros [= <-]. simpl.
  apply head_Some_elem_of, list_elem_of_filter in Hhead as [_ Hr].
  unfold wallet_addresses_lower in Hlow. rewrite Forall_forall in Hlow.
  by apply Hlow.
Qed.

(** X19. [delete_wallet_mapping(ck)] returns [True] exactly when a mapping
    for [ck] was stored; afterwards [get_wallet_mapping(ck)] finds none;
    and when none was stored the file is left as it was. *)
Theorem delete_wallet_mapping_result e1 e2 db ck :
  storage_fault e1 = None ->
  storage_fault e2 = None ->
  let r := run (delete_wallet_mapping ck) e1 db in
  res_outcome r = Returned (bool_decide (ck ∈ wm_coldkey <$> wallet_mappings db)) /\
  res_outcome (run (get_wallet_mapping ck) e2 (res_db r)) = Returned None /\
  (ck ∉ wm_coldkey <$> wallet_mappings db -> res_db r = db).
Proof.
  intros He1 He2 r. subst r.
  rewrite run_delete_wallet_mapping, He1. cbn [res_outcome res_db].
  split; [|split].
  - f_equal. cbn [sql_delete_wallet snd].
    pose proof (filter_key_nil_iff wm_coldkey ck (wallet_mappings db)) as Hnil.
    destruct (filter (fun r => wm_coldkey r = ck) (wallet_mappings db)) as [|x l].
    + rewrite bool_decide_eq_false_2; [done|]. by apply Hnil.
    + rewrite bool_decide_eq_true_2; [done|].
      destruct (decide (ck ∈ wm_coldkey <$> wallet_mappings db)) as [|Hout]; [done|].
      by apply Hnil in Hout.
  - rewrite run_get_wallet_mapping by done. cbn [res_outcome].
    cbn [sql_delete_wallet fst wallet_mappings].
    by rewrite filter_out_then_select.
  - intros Hout. cbn [sql_delete_wallet fst].
    rewrite (filter_out_absent wm_coldkey) by done. by destruct db.
Qed.

(** X20. Saving or deleting the mapping of one coldkey leaves the mapping
    of every other coldkey as it was. *)
Theorem wallet_mapping_other_coldkey e e' db ck ck' evm sig msg ts :
  ck' <> ck ->
  storage_fault e' = None ->
  res_outcome (run (get_wallet_mapping ck') e'
                 (res_db (run (save_wallet_mapping ck evm sig msg ts) e db)))
  = res_outcome (run (get_wallet_mapping ck') e' db) /\
  res_outcome (run (get_wallet_mapping ck') e'
                 (res_db (run (delete_wallet_mapping ck) e db)))
  = res_outcome (run (get_wallet_mapping ck') e' db).
Proof.
  intros Hne He'. rewrite !run_get_wallet_mapping by done. cbn [res_outcome].
  rewrite run_save_wallet_mapping, run_delete_wallet_mapping.
  destruct (storage_fault e) as [[]|]; cbn [res_db]; try done.
  cbn [sql_insert_or_replace_wallet sql_delete_wallet fst wallet_mappings].
  rewrite filter_app, !filter_select_other by done.
  rewrite filter_cons_False by (simpl; congruence).
  by rewrite app_nil_r.
Qed.

(** X21. [get_all_wallet_mappings] returns one summary per stored mapping,
    latest verification first; with at most one mapping per coldkey, no
    coldkey is listed twice. *)
Theorem get_all_wallet_mappings_exact e db :
  storage_fault e = None ->
  wallet_mappings_unique db ->
  exists rows,
    res_outcome (run get_all_wallet_mappings e db)
      = Returned (wallet_summary_of_row <$> rows) /\
    rows ≡ₚ wallet_mappings db /\
    StronglySorted (fun x y => wm_verified_at y <= wm_verified_at x) rows /\
    NoDup (ws_coldkey <$> (wallet_summary_of_row <$> rows)).
Proof.
  intros He Hnd. rewrite run_get_all_wallet_mappings by done.
  eexists. split; [reflexivity|]. split; [apply order_by_desc_Permutation|].
  split; [apply order_by_desc_sorted|].
  rewrite <- list_fmap_compose.
  change (NoDup (wm_coldkey <$> order_by_desc wm_verified_at (wallet_mappings db))).
  by rewrite order_by_desc_Permutation.
Qed.

(** X22. The letter case of the address given to [save_wallet_mapping]
    does not matter to what is stored: two addresses with the same
    lower-case form give the same result and the same file. *)
Theorem save_wallet_mapping_case_insensitive e db ck evm evm' sig msg ts :
  lower evm = lower evm' ->
  res_outcome (run (save_wallet_mapping ck evm sig msg ts) e db)
  = res_outcome (run (save_wallet_mapping ck evm' sig msg ts) e db) /\
  res_db (run (save_wallet_mapping ck evm sig msg ts) e db)
  = res_db (run (save_wallet_mapping ck evm' sig msg ts) e db).
Proof.
  intros Hlow. rewrite !run_save_wallet_mapping, Hlow.
  by destruct (storage_fault e) as [[]|].
Qed.

End MoreProperties.

Section EventFacts.
Context {num : Type} `{PyFloat num}.

Local Abbreviation database := (database num).
Implicit Types (db : database) (e : env).

(** Rows with distinct keys are told apart by their keys. *)
Lemma NoDup_fmap_inj_on {A B} (f : A -> B) (l : list A) x y :
  NoDup (f <$> l) -> x ∈ l -> y ∈ l -> f x = f y -> x = y.
Proof.
  induction l as [|a l IH]; intros Hnd Hx Hy Hxy.
  - by apply elem_of_nil in Hx.
  - rewrite fmap_cons in Hnd. apply NoDup_cons in Hnd as [Ha Hnd].
    apply elem_of_cons in Hx as [->|Hx]; apply elem_of_cons in Hy as [->|Hy];
      try done.
    + exfalso. apply Ha. rewrite Hxy. by apply list_elem_of_fmap_2.
    + exfalso. apply Ha. rewrite <- Hxy. by apply list_elem_of_fmap_2.
    + by apply IH.
Qed.

(** X23. With the UNIQUE constraint in force, the events
    [get_cached_bet_events] returns for an address differ pairwise in
    (game_id, block_number, side): no bet is reported twice. *)
Theorem get_cached_bet_events_no_repeat e db a since :
  bet_events_unique db ->
  storage_fault e = None ->
  exists l,
    res_outcome (run (get_cached_bet_events a since) e db) = Returned l /\
    NoDup ((fun d => (bd_game_id d, bd_block_number d, bd_side d)) <$> l).
Proof.
  intros Hnd He. rewrite run_get_cached_bet_events by done.
  eexists. split; [reflexivity|].
  rewrite <- list_fmap_compose.
  assert (NoDup (bet_key <$> sql_select_bet_events a since db)) as Hkeys.
  { unfold sql_select_bet_events. rewrite order_by_desc_Permutation.
    eapply sublist_NoDup; [exact Hnd|]. apply fmap_sublist, sublist_filter. }
  apply NoDup_fmap_2_strong; [|by apply (NoDup_fmap_1 bet_key)].
  intros x y Hx Hy Hxy.
  apply (NoDup_fmap_inj_on bet_key (sql_select_bet_events a since db)); try done.
  apply elem_of_select_bet_events in Hx as (_ & Hax & _).
  apply elem_of_select_bet_events in Hy as (_ & Hay & _).
  simpl in Hxy. unfold bet_key. congruence.
Qed.

(** X24. [cache_bet_event] swallows a fault of the statement or of the
    commit: it returns normally, writes nothing and leaves one DEBUG line;
    only a failure to open the connection reaches the caller. Without a
    fault it logs nothing. *)
Theorem cache_bet_event_swallows_faults e db a g m s b t :
  let r := run (cache_bet_event a g m s b t) e db in
  match storage_fault e with
  | None => res_outcome r = Returned tt /\ res_log r = []
  | Some AtConnect =>
      res_outcome r = Raised (OperationalError AtConnect) /\
      res_db r = db /\ res_log r = []
  | Some p =>
      res_outcome r = Returned tt /\ res_db r = db /\
      res_log r = [(DEBUG, ErrorCachingBetEvent (OperationalError p))]
  end.
Proof.
  intros r. subst r. rewrite run_cache_bet_event.
  by destruct (storage_fault e) as [[]|].
Qed.

End EventFacts.

(** * The further properties on the sample file *)

Lemma get_latest_snapshot_none_iff_empty_witness :
  storage_fault (calm 2000) = None /\
  res_outcome (run get_latest_snapshot (calm 2000) (empty_db (num:=Z)))
  = Returned None.
Proof.
  split; [reflexivity|].
  exact (proj2 (get_latest_snapshot_none_iff_empty (calm 2000) empty_db eq_refl)
           eq_refl).
Defined.

Lemma get_snapshots_length_witness :
  storage_fault (calm 2000) = None /\
  exists l,
    res_outcome (run (get_snapshots 1) (calm 2000) sample_db) = Returned l /\
    length l = 1%nat.
Proof.
  split; [reflexivity|].
  destruct (get_snapshots_length (calm 2000) sample_db 1 eq_refl) as (l & Hl & Hlen).
  exists l. split; [exact Hl|exact Hlen].
Defined.

Lemma get_snapshots_newest_first_witness :
  (snapshots_increasing (num:=Z) empty_db /\ storage_fault (calm 2000) = None) /\
  res_outcome (run (get_snapshots 5) (calm 2000) (exec_all sample_history empty_db))
  = Returned [{| ss_block_number := 90; ss_timestamp := 1060;
                 ss_total_miners := 1; ss_total_volume := 3 |};
              {| ss_block_number := 100; ss_timestamp := 1000;
                 ss_total_miners := 1; ss_total_volume := 30 |}].
Proof.
  assert (snapshots_increasing (num:=Z) empty_db) as H0 by constructor.
  split; [by split|].
  exact (proj2 (get_snapshots_newest_first sample_history empty_db (calm 2000) 5
                  H0 eq_refl)).
Defined.

Lemma get_snapshot_by_block_exact_witness :
  storage_fault (calm 2000) = None /\
  exists r,
    r ∈ snapshots sample_db /\ snap_block_number r = 90 /\
    res_outcome (run (get_snapshot_by_block 90) (calm 2000) sample_db)
    = Returned (Some (snapshot_dict_of_row r)).
Proof.
  split; [reflexivity|].
  pose proof (get_snapshot_by_block_exact (calm 2000) sample_db 90 eq_refl) as Hm.
  destruct (res_outcome (run (get_snapshot_by_block 90) (calm 2000) sample_db))
    as [[d|]|x] eqn:Hout.
  - destruct Hm as (r & Hr & Hb & ->). by exists r.
  - discriminate Hout.
  - discriminate Hout.
Defined.

Lemma save_snapshot_then_get_by_block_witness :
  (storage_fault (calm 2000) = None /\ storage_fault (calm 2001) = None /\
   NoDup (dict_keys [(1, 8); (3, 2)]) /\ NoDup (dict_keys [(1, 4); (3, 6)]) /\
   (forall r, r ∈ snapshots sample_db -> snap_block_number r <> 77)) /\
  res_outcome (run (get_snapshot_by_block 77) (calm 2001)
    (res_db (run (save_snapshot 77 [(1, 8); (3, 2)] [(1, 4); (3, 6)])
               (calm 2000) sample_db)))
  = Returned (Some
      {| sd_block_number := 77; sd_timestamp := 2000;
         sd_total_miners := 2; sd_total_volume := 10;
         sd_scores := PyDict [(KStr "1", 8); (KStr "3", 2)];
         sd_volumes := PyDict [(KStr "1", 4); (KStr "3", 6)] |}).
Proof.
  assert (NoDup (dict_keys [(1, 8); (3, 2)])) as Hs by by_evaluation.
  assert (NoDup (dict_keys [(1, 4); (3, 6)])) as Hv by by_evaluation.
  assert (forall r, r ∈ snapshots sample_db -> snap_block_number r <> 77) as Hnew.
  { apply (proj1 (Forall_forall _ _)). by_evaluation. }
  split; [by repeat split|].
  exact (save_snapshot_then_get_by_block (calm 2000) (calm 2001) sample_db 77
           [(1, 8); (3, 2)] [(1, 4); (3, 6)] eq_refl eq_refl Hs Hv Hnew).
Defined.

Lemma writer_fault_leaves_file_unchanged_witness :
  storage_fault (faulty 2000 AtCommit) = Some AtCommit /\
  exec (SaveWalletMapping "5Grw" "0xFFF" "sig3" "msg3" 1900) (faulty 2000 AtCommit)
    sample_db = sample_db /\
  exec (CleanupOldEvents 0) (faulty 2000 AtCommit) sample_db = sample_db.
Proof.
  split; [reflexivity|]. split.
  - exact (writer_fault_leaves_file_unchanged
             (SaveWalletMapping "5Grw" "0xFFF" "sig3" "msg3" 1900)
             (faulty 2000 AtCommit) sample_db AtCommit eq_refl).
  - exact (writer_fault_leaves_file_unchanged (CleanupOldEvents 0)
             (faulty 2000 AtCommit) sample_db AtCommit eq_refl).
Defined.

Lemma get_miner_data_none_iff_absent_witness :
  (storage_fault (calm 2000) = None /\ 7 ∉ md_uid <$> miner_data sample_db) /\
  res_outcome (run (get_miner_data 7) (calm 2000) sample_db) = Returned None.
Proof.
  assert (7 ∉ md_uid <$> miner_data sample_db) as Hout by by_evaluation.
  split; [by split|].
  exact (proj2 (get_miner_data_none_iff_absent (calm 2000) sample_db 7 eq_refl) Hout).
Defined.

Lemma update_miner_data_other_uid_witness :
  (1 <> 2 /\ storage_fault (calm 2001) = None) /\
  res_outcome (run (get_miner_data 1) (calm 2001)
    (res_db (run (update_miner_data 2 "hk9" "ck9" (Some "0xbb") [7] 8 1)
               (calm 2000) sample_db)))
  = Returned (Some
      {| mi_uid := 1; mi_hotkey := "hk1"; mi_coldkey := "ck1";
         mi_evm_address := Some "0xaa"; mi_daily_volumes := PyList [1; 2];
         mi_weighted_volume := 3; mi_score := 5; mi_last_updated := 1100 |}).
Proof.
  assert (1 <> 2) as Hne by lia.
  split; [by split|].
  exact (update_miner_data_other_uid (calm 2000) (calm 2001) sample_db 2 1
           "hk9" "ck9" (Some "0xbb") [7] 8 1 Hne eq_refl).
Defined.

Lemma get_all_miner_data_sorted_witness :
  (storage_fault (calm 2000) = None /\
   (forall a b : Z, f_lt a b = true -> f_lt b a = false) /\
   (forall a b c : Z, f_lt a b = false -> f_lt b c = false -> f_lt a c = false)) /\
  exists l,
    res_outcome (run get_all_miner_data (calm 2000) sample_db) = Returned l /\
    l ≡ₚ miner_dict_of_row <$> miner_data sample_db /\
    StronglySorted (fun x y => f_lt (mi_score x) (mi_score y) = false) l.
Proof.
  assert (forall a b : Z, f_lt a b = true -> f_lt b a = false) as Hasym.
  { intros a b. simpl. rewrite Z.ltb_lt, Z.ltb_ge. lia. }
  assert (forall a b c : Z, f_lt a b = false -> f_lt b c = false -> f_lt a c = false)
    as Htrans.
  { intros a b c. simpl. rewrite !Z.ltb_ge. lia. }
  split; [by repeat split|].
  exact (get_all_miner_data_sorted (calm 2000) sample_db eq_refl Hasym Htrans).
Defined.

Lemma get_cached_bet_events_exact_witness :
  storage_fault (calm 2000) = None /\
  exists rows,
    res_outcome (run (get_cached_bet_events "0xa" 790400) (calm 2000) sample_db)
      = Returned (bet_event_dict_of_row <$> rows) /\
    rows ≡ₚ filter (fun r => be_evm_address r = "0xa" /\ 790400 <= be_timestamp r)
              (bet_events sample_db) /\
    StronglySorted (fun x y => be_timestamp y <= be_timestamp x) rows.
Proof.
  split; [reflexivity|].
  exact (get_cached_bet_events_exact (calm 2000) sample_db "0xa" 790400 eq_refl).
Defined.

Lemma cache_then_get_cached_witness :
  ((("0xa", 9, 20, 0) ∉ bet_key <$> bet_events sample_db) /\
   storage_fault (calm 2000) = None /\ storage_fault (calm 2001) = None /\
   800000 <= 900000) /\
  exists l,
    res_outcome (run (get_cached_bet_events "0xa" 800000) (calm 2001)
                   (res_db (run (cache_bet_event "0xa" 9 4 0 20 900000)
                              (calm 2000) sample_db)))
      = Returned l /\
    {| bd_game_id := 9; bd_amount := 4; bd_side := 0; bd_block_number := 20;
       bd_timestamp := 900000 |} ∈ l.
Proof.
  assert (("0xa", 9, 20, 0) ∉ bet_key <$> bet_events sample_db) as Hout
    by by_evaluation.
  assert (800000 <= 900000) as Hle by lia.
  split; [by repeat split|].
  exact (cache_then_get_cached (calm 2000) (calm 2001) sample_db "0xa" 9 4 0 20
           900000 800000 Hout eq_refl eq_refl Hle).
Defined.

Lemma cache_bet_event_other_address_witness :
  ("0xa" <> "0xA" /\ storage_fault (calm 2001) = None) /\
  res_outcome (run (get_cached_bet_events "0xa" 0) (calm 2001)
                 (res_db (run (cache_bet_event "0xA" 9 4 0 20 900000)
                            (calm 2000) sample_db)))
  = Returned
      [{| bd_game_id := 2; bd_amount := 6; bd_side := 1; bd_block_number := 11;
          bd_timestamp := 790400 |};
       {| bd_game_id := 1; bd_amount := 5; bd_side := 0; bd_block_number := 10;
          bd_timestamp := 790399 |}].
Proof.
  assert ("0xa" <> "0xA") as Hne by discriminate.
  split; [by split|].
  exact (cache_bet_event_other_address (calm 2000) (calm 2001) sample_db
           "0xA" "0xa" 9 4 0 20 900000 0 Hne eq_refl).
Defined.

Lemma cleanup_then_get_cached_witness :
  (storage_fault (calm 2000000) = None /\ storage_fault (calm 2000001) = None) /\
  exists before after,
    res_outcome (run (get_cached_bet_events "0xa" 0) (calm 2000001) sample_db)
      = Returned before /\
    res_outcome (run (get_cached_bet_events "0xa" 0) (calm 2000001)
                   (res_db (run (cleanup_old_events 14) (calm 2000000) sample_db)))
      = Returned after /\
    forall d, d ∈ after <-> d ∈ before /\ 790400 <= bd_timestamp d.
Proof.
  split; [by split|].
  exact (cleanup_then_get_cached (calm 2000000) (calm 2000001) sample_db 14 "0xa" 0
           eq_refl eq_refl).
Defined.

Lemma wallet_mappings_unique_along_history_witness :
  wallet_mappings_unique (num:=Z) empty_db /\
  wallet_mappings_unique (exec_all sample_history empty_db).
Proof.
  assert (wallet_mappings_unique (num:=Z) empty_db) as H0 by apply NoDup_nil_2.
  split; [exact H0|].
  exact (wallet_mappings_unique_along_history sample_history empty_db H0).
Defined.

Lemma wallet_addresses_stay_lower_witness :
  (wallet_addresses_lower (num:=Z) empty_db /\
   storage_fault (calm 2000) = None /\
   res_outcome (run (get_wallet_mapping "5Grw") (calm 2000)
                  (exec_all sample_history empty_db))
   = Returned (Some
       {| wd_coldkey := "5Grw"; wd_evm_address := "0xabc"; wd_signature := "sig";
          wd_message := "msg"; wd_timestamp := 1700; wd_verified_at := 1300 |})) /\
  lower "0xabc" = "0xabc".
Proof.
  assert (wallet_addresses_lower (num:=Z) empty_db) as H0 by constructor.
  split; [by repeat split|].
  exact (wallet_addresses_stay_lower sample_history empty_db (calm 2000) "5Grw"
           {| wd_coldkey := "5Grw"; wd_evm_address := "0xabc"; wd_signature := "sig";
              wd_message := "msg"; wd_timestamp := 1700; wd_verified_at := 1300 |}
           H0 eq_refl eq_refl).
Defined.

Lemma delete_wallet_mapping_result_witness :
  (storage_fault (calm 2000) = None /\ storage_fault (calm 2001) = None) /\
  res_outcome (run (delete_wallet_mapping "5Grw") (calm 2000) sample_db)
  = Returned true /\
  res_outcome (run (get_wallet_mapping "5Grw") (calm 2001)
                 (res_db (run (delete_wallet_mapping "5Grw") (calm 2000) sample_db)))
  = Returned None /\
  res_outcome (run (delete_wallet_mapping "5Nope") (calm 2000) sample_db)
  = Returned false /\
  res_db (run (delete_wallet_mapping "5Nope") (calm 2000) sample_db) = sample_db.
Proof.
  split; [by split|].
  destruct (delete_wallet_mapping_result (calm 2000) (calm 2001) sample_db "5Grw"
              eq_refl eq_refl) as (Hret & Hget & _).
  destruct (delete_wallet_mapping_result (calm 2000) (calm 2001) sample_db "5Nope"
              eq_refl eq_refl) as (Hret' & _ & Hsame).
  assert ("5Nope" ∉ wm_coldkey <$> wallet_mappings sample_db) as Hout
    by by_evaluation.
  split; [exact Hret|]. split; [exact Hget|]. split; [exact Hret'|].
  exact (Hsame Hout).
Defined.

Lemma wallet_mapping_other_coldkey_witness :
  ("5Fhx" <> "5Grw" /\ storage_fault (calm 2001) = None) /\
  res_outcome (run (get_wallet_mapping "5Fhx") (calm 2001)
    (res_db (run (save_wallet_mapping "5Grw" "0xFFF" "sig3" "msg3" 1900)
               (calm 2000) sample_db)))
  = res_outcome (run (get_wallet_mapping "5Fhx") (calm 2001) sample_db) /\
  res_outcome (run (get_wallet_mapping "5Fhx") (calm 2001)
    (res_db (run (delete_wallet_mapping "5Grw") (calm 2000) sample_db)))
  = res_outcome (run (get_wallet_mapping "5Fhx") (calm 2001) sample_db).
Proof.
  assert ("5Fhx" <> "5Grw") as Hne by discriminate.
  split; [by split|].
  exact (wallet_mapping_other_coldkey (calm 2000) (calm 2001) sample_db
           "5Grw" "5Fhx" "0xFFF" "sig3" "msg3" 1900 Hne eq_refl).
Defined.

Lemma get_all_wallet_mappings_exact_witness :
  (storage_fault (calm 2000) = None /\ wallet_mappings_unique sample_db) /\
  exists rows,
    res_outcome (run get_all_wallet_mappings (calm 2000) sample_db)
      = Returned (wallet_summary_of_row <$> rows) /\
    rows ≡ₚ wallet_mappings sample_db /\
    StronglySorted (fun x y => wm_verified_at y <= wm_verified_at x) rows /\
    NoDup (ws_coldkey <$> (wallet_summary_of_row <$> rows)).
Proof.
  assert (wallet_mappings_unique sample_db) as Hnd
    by (unfold wallet_mappings_unique; by_evaluation).
  split; [by split|].
  exact (get_all_wallet_mappings_exact (calm 2000) sample_db eq_refl Hnd).
Defined.

Lemma save_wallet_mapping_case_insensitive_witness :
  lower "0xABC" = lower "0xaBc" /\
  res_db (run (save_wallet_mapping "5Grw" "0xABC" "sig" "msg" 1700)
            (calm 2000) sample_db)
  = res_db (run (save_wallet_mapping "5Grw" "0xaBc" "sig" "msg" 1700)
              (calm 2000) sample_db).
Proof.
  split; [reflexivity|].
  exact (proj2 (save_wallet_mapping_case_insensitive (calm 2000) sample_db "5Grw"
                  "0xABC" "0xaBc" "sig" "msg" 1700 eq_refl)).
Defined.

Lemma get_cached_bet_events_no_repeat_witness :
  (bet_events_unique sample_db /\ storage_fault (calm 2000) = None) /\
  exists l,
    res_outcome (run (get_cached_bet_events "0xa" 0) (calm 2000) sample_db)
      = Returned l /\
    NoDup ((fun d => (bd_game_id d, bd_block_number d, bd_side d)) <$> l).
Proof.
  assert (bet_events_unique sample_db) as Hnd
    by (unfold bet_events_unique; by_evaluation).
  split; [by split|].
  exact (get_cached_bet_events_no_repeat (calm 2000) sample_db "0xa" 0 Hnd eq_refl).
Defined.
